(** * DevHub authentication core: session keeper, session exchanger,
      error normaliser, event reactor and personal-access-token validator.

    Shallow embedding of
      - packages/components/src/redux/sagas/auth.ts
      - packages/components/src/components/context/LoginHelpersContext.tsx

    Conventions of the embedding.
      - JavaScript numbers that the code uses are millisecond time stamps,
        HTTP status codes and GitHub ids: all integers, modelled by [Z].
      - An ISO-8601 time stamp string (the result of
        [new Date().toISOString()]) is identified with the epoch millisecond
        value that [new Date(s).getTime()] gives back for it.
      - Values the TypeScript code treats as [any]/[unknown] (thrown values,
        GraphQL error entries, the body kept in an [AuthError]) are modelled
        by the dynamic type [Js.value]; data the code gives a type to is
        modelled by records, with [option] (or [PUndef]) where the code
        tests for presence.
      - A saga or an async helper is modelled by the list of effects it
        performs, in order. *)

From Stdlib Require Import ZArith List String Ascii Bool Lia.
From Stdlib Require Import Numbers.DecimalString Numbers.DecimalZ.
Import ListNotations.
Local Open Scope string_scope.
Local Open Scope Z_scope.

(* ================================================================= *)
(** ** JavaScript values *)

Module Js.

Set Warnings "-register-all".

(** Primitive values. *)
Inductive prim : Type :=
| PUndef
| PNull
| PBool (b : bool)
| PNum (n : Z)
| PStr (s : string).

(** Dynamic values.  [VErr name message props] is an instance of [Error]
    (what [instanceof Error] recognises) with its own extra properties;
    [VObj props] is any other object. *)
Inductive value : Type :=
| VPrim (p : prim)
| VArr (items : list value)
| VObj (props : list (string * value))
| VErr (name message : string) (props : list (string * value)).

Coercion VPrim : prim >-> value.

Definition undefined : value := VPrim PUndef.

(** ToBoolean. *)
Definition truthy_prim (p : prim) : bool :=
  match p with
  | PUndef | PNull => false
  | PBool b => b
  | PNum n => negb (n =? 0)
  | PStr s => negb (String.eqb s "")
  end.

Definition truthy (v : value) : bool :=
  match v with
  | VPrim p => truthy_prim p
  | _ => true
  end.

(** [typeof v === 'object'] ([null] included, as in JavaScript). *)
Definition typeof_object (v : value) : bool :=
  match v with
  | VPrim PNull => true
  | VPrim _ => false
  | _ => true
  end.

(** [typeof v === 'number']. *)
Definition typeof_number (v : value) : bool :=
  match v with
  | VPrim (PNum _) => true
  | _ => false
  end.

(** [Array.isArray v]. *)
Definition isArray (v : value) : bool :=
  match v with
  | VArr _ => true
  | _ => false
  end.

Fixpoint assoc (k : string) (props : list (string * value)) : value :=
  match props with
  | [] => undefined
  | (k', v) :: rest => if String.eqb k k' then v else assoc k rest
  end.

(** Property read [v.k].  [None] is the [TypeError] raised when [v] is
    [undefined] or [null]; a missing property reads as [undefined].  An
    [Error] instance answers [name] and [message] from its own fields. *)
Definition get (v : value) (k : string) : option value :=
  match v with
  | VPrim PUndef | VPrim PNull => None
  | VPrim _ => Some undefined
  | VArr items =>
      Some (if String.eqb k "length"
            then VPrim (PNum (Z.of_nat (List.length items)))
            else undefined)
  | VObj props => Some (assoc k props)
  | VErr name message props =>
      Some (if String.eqb k "name" then VPrim (PStr name)
            else if String.eqb k "message" then VPrim (PStr message)
            else assoc k props)
  end.

(** Property read on a value already known to be truthy (so never a
    [TypeError]); [undefined] stands in for the impossible case. *)
Definition prop (v : value) (k : string) : value :=
  match get v k with
  | Some x => x
  | None => undefined
  end.

(** [v === n] for a number literal [n]. *)
Definition is_num (v : value) (n : Z) : bool :=
  match v with
  | VPrim (PNum m) => m =? n
  | _ => false
  end.

(** [v === s] for a string literal [s]. *)
Definition is_str (v : value) (s : string) : bool :=
  match v with
  | VPrim (PStr t) => String.eqb t s
  | _ => false
  end.

(** Decimal rendering of an integer, as [String(n)] gives it. *)
Definition Z_to_string (n : Z) : string :=
  NilEmpty.string_of_int (Z.to_int n).

(** Template-literal conversion [`${p}`] of a primitive. *)
Definition tmpl (p : prim) : string :=
  match p with
  | PUndef => "undefined"
  | PNull => "null"
  | PBool true => "true"
  | PBool false => "false"
  | PNum n => Z_to_string n
  | PStr s => s
  end.

(** Strict equality [p === q] of primitives. *)
Definition prim_eqb (p q : prim) : bool :=
  match p, q with
  | PUndef, PUndef => true
  | PNull, PNull => true
  | PBool a, PBool b => Bool.eqb a b
  | PNum a, PNum b => a =? b
  | PStr a, PStr b => String.eqb a b
  | _, _ => false
  end.

(** [a || b] on primitives. *)
Definition or_prim (a b : prim) : prim :=
  if truthy_prim a then a else b.

End Js.

Import Js.

(* ================================================================= *)
(** ** Data model *)

(** An ISO time stamp, identified with its epoch milliseconds. *)
Definition Timestamp : Type := Z.

(** [GitHubTokenDetails]. *)
Module TokenDetails.
Record t : Type := mk {
  token : string;
  scope : list string;
  tokenType : option string;
  tokenCreatedAt : option Timestamp;
  login : prim
}.
End TokenDetails.

(** [User['github']['user']]: the GitHub account of the session. *)
Module GitHubUser.
Record t : Type := mk {
  id : prim;
  nodeId : prim;
  login : prim;
  name : prim;
  avatarUrl : prim;
  createdAt : prim;
  updatedAt : prim
}.
End GitHubUser.

Module FeatureFlags.
Record t : Type := mk {
  columnsLimit : Z;
  enableFilters : bool;
  enableSync : bool;
  enablePrivateRepositories : bool;
  enablePushNotifications : bool
}.
End FeatureFlags.

(** [User['plan']]; a field the code may leave [undefined] is an option. *)
Module Plan.
Record t : Type := mk {
  id : string;
  source : string;
  type : option string;
  status : string;
  amount : Z;
  currency : string;
  trialPeriodDays : Z;
  intervalCount : Z;
  label : string;
  interval : option string;
  quantity : option Z;
  startAt : option Timestamp;
  cancelAt : option Timestamp;
  cancelAtPeriodEnd : bool;
  trialStartAt : option Timestamp;
  trialEndAt : option Timestamp;
  currentPeriodStartAt : option Timestamp;
  currentPeriodEndAt : option Timestamp;
  last4 : option string;
  reason : option string;
  users : option (list string);
  featureFlags : FeatureFlags.t;
  createdAt : option Timestamp;
  updatedAt : option Timestamp
}.
End Plan.

(** [User['github']]. *)
Module GitHubIdentity.
Record t : Type := mk {
  app : option TokenDetails.t;
  oauth : option TokenDetails.t;
  personal : option TokenDetails.t;
  user : option GitHubUser.t
}.
End GitHubIdentity.

Module User.
Record t : Type := mk {
  _id : string;
  github : option GitHubIdentity.t;
  plan : option Plan.t;
  createdAt : option Timestamp;
  updatedAt : option Timestamp;
  lastLoginAt : option Timestamp
}.
End User.

(** [AuthError] of reducers/auth: [status] and [response] are optional and
    hold whatever the normaliser copied, hence dynamic values. *)
Module AuthError.
Record t : Type := mk {
  name : string;
  message : string;
  status : value;
  response : value
}.
End AuthError.

(** The actions of redux/actions that the two files emit. *)
Inductive action : Type :=
| loginRequest (appToken : string)
| loginSuccess (appToken : string) (user : User.t)
| loginFailure (error : AuthError.t)
| logout
| replacePersonalTokenDetails (tokenDetails : option TokenDetails.t).

(** What a saga or a helper does to the outside, in program order. *)
Inductive effect : Type :=
| Take (pattern : string)                     (* yield take(pattern) *)
| Put (a : action)                            (* yield put(a) *)
| Delay (ms : Z)                              (* yield delay(ms) *)
| Reload                                      (* window.location.reload() *)
| Dispatch (a : action)                       (* dispatch(a) *)
| ConsoleError (args : list value)            (* console.error(...) *)
| BugsnagNotify (err : value) (description : option string)
| TrackEvent (category act : string)          (* analytics.trackEvent *)
| SetIsExecutingOAuth (b : bool)
| SetPATLoadingState (s : option string)
| DialogShow (title message : string).        (* dialog.show(title, msg) *)

Definition is_login_request (e : effect) : bool :=
  match e with
  | Put (loginRequest _) | Dispatch (loginRequest _) => true
  | _ => false
  end.

Definition is_logout (e : effect) : bool :=
  match e with
  | Put logout | Dispatch logout => true
  | _ => false
  end.

Definition is_dialog (e : effect) : bool :=
  match e with
  | DialogShow _ _ => true
  | _ => false
  end.

Definition is_notify (e : effect) : bool :=
  match e with
  | BugsnagNotify _ _ => true
  | _ => false
  end.

Definition count (f : effect -> bool) (l : list effect) : nat :=
  List.length (filter f l).

(* ================================================================= *)
(** ** Session keeper: [init] of sagas/auth.ts *)

Module Keeper.

(** What the selectors return for the state read at the top of one
    iteration ([appTokenSelector], [isLoggedSelector],
    [currentUserSelector], [currentUserPlanSelector]). *)
Record Snapshot : Type := mkSnapshot {
  appToken : option string;
  isLogged : bool;
  user : option User.t;
  plan : option Plan.t
}.

(** [appToken && isLogged && user]. *)
Definition session (st : Snapshot) : option (string * User.t) :=
  match appToken st, user st with
  | Some tok, Some u =>
      if negb (String.eqb tok "") && isLogged st then Some (tok, u) else None
  | _, _ => None
  end.

(** First branch: a reloadable page and a login older than 48 hours. *)
Definition reload_branch (reloadable : bool) (now last : Z) : bool :=
  reloadable && (now - last >? 1000 * 60 * 60 * 48).

(** Second branch: a login older than 12 hours. *)
Definition refresh_branch (now last : Z) : bool :=
  now - last >? 1000 * 60 * 60 * 12.

(** [plan && plan.trialEndAt]. *)
Definition trialEndAt (p : option Plan.t) : option Timestamp :=
  match p with
  | Some pl => Plan.trialEndAt pl
  | None => None
  end.

(** Third branch: the plan's trial ended, less than 5 minutes ago. *)
Definition trial_just_expired (p : option Plan.t) (now : Z) : bool :=
  match trialEndAt p with
  | Some t => (now >=? t) && (now - t <? 1000 * 60 * 5)
  | None => false
  end.


(** The final [if]/[else] of the loop body. *)
Definition generic_delay (p : option Plan.t) (now : Z) : list effect :=
  match trialEndAt p with
  | Some t =>
      if (t >? now) && (t - now <? 1000 * 60 * 60)
      then [Delay (now - t + 100)]
      else [Delay (1000 * 60 * 60)]
  | None => [Delay (1000 * 60 * 60)]
  end.

(** One pass through the body of [while (true)].  [reloadable] is
    [window && window.location && window.location.reload]; [now] is the
    reading of [Date.now()] during the pass.  The list ends where the body
    ends or where it executes [continue]. *)
Definition iteration (reloadable : bool) (now : Z) (st : Snapshot)
  : list effect :=
  match session st with
  | None => [Take "LOGIN_SUCCESS"]
  | Some (tok, u) =>
      match User.lastLoginAt u with
      | None => []
      | Some last =>
          if reload_branch reloadable now last then
            Reload :: generic_delay (plan st) now
          else if refresh_branch now last then
            Put (loginRequest tok) :: generic_delay (plan st) now
          else if trial_just_expired (plan st) now then
            [Put (loginRequest tok); Delay (1000 * 60 * 1)]
          else
            generic_delay (plan st) now
      end
  end.

(** [init]: wait for the first login, then run the body once per state and
    clock reading handed over by the scheduler. *)
Definition init (reloadable : bool) (passes : list (Z * Snapshot))
  : list effect :=
  Take "LOGIN_SUCCESS"
  :: flat_map (fun p => iteration reloadable (fst p) (snd p)) passes.

End Keeper.

(* ================================================================= *)
(** ** Effects and exceptions *)

(** A computation performs effects and then either returns or throws. *)
Definition M (A : Type) : Type := (list effect * (value + A))%type.

Definition ret {A} (a : A) : M A := ([], inr a).
Definition throw {A} (e : value) : M A := ([], inl e).
Definition emit (e : effect) : M unit := ([e], inr tt).

Definition bind {A B} (m : M A) (k : A -> M B) : M B :=
  match m with
  | (l, inl e) => (l, inl e)
  | (l, inr a) => let (l', r) := k a in ((l ++ l')%list, r)
  end.

(** [try { m } catch (error) { h error }]. *)
Definition try_catch {A} (m : M A) (h : value -> M A) : M A :=
  match m with
  | (l, inl e) => let (l', r) := h e in ((l ++ l')%list, r)
  | (l, inr a) => (l, inr a)
  end.

Notation "'do' x <- m ; k" := (bind m (fun x => k))
  (at level 10, x name, m at level 100, k at level 200).
Notation "m ;; k" := (bind m (fun _ => k))
  (at level 100, k at level 200, right associativity).

Definition effects {A} (m : M A) : list effect := fst m.

(** [new Error(message)]. *)
Definition new_Error (message : string) : value := VErr "Error" message [].

(** The [TypeError] of a property read on [undefined] or [null]. *)
Definition TypeError : value :=
  VErr "TypeError" "Cannot read properties of undefined" [].

Definition instanceof_Error (v : value) : bool :=
  match v with
  | VErr _ _ _ => true
  | _ => false
  end.

(** [error instanceof Error ? error : new Error(fallback)]. *)
Definition to_Error (error : value) (fallback : string) : value :=
  if instanceof_Error error then error else new_Error fallback.

(** [err.name] and [err.message] of an [Error] instance. *)
Definition error_name (v : value) : string :=
  match v with
  | VErr n _ _ => n
  | _ => ""
  end.

Definition error_message (v : value) : string :=
  match v with
  | VErr _ m _ => m
  | _ => ""
  end.

(** The fields of the REST answer of [GET /user] that the code reads. *)
Module RestUser.
Record t : Type := mk {
  id : prim;
  node_id : prim;
  login : prim;
  name : prim;
  avatar_url : prim;
  created_at : prim;
  updated_at : prim
}.
End RestUser.

(* ================================================================= *)
(** ** Session exchanger, error normaliser and event reactor
       (sagas/auth.ts) *)

Module Saga.

(** [GraphQLResponse<T>]. *)
Record GraphQLResponse (T : Type) : Type := mkGraphQLResponse {
  gql_data : T;
  gql_status : Z;
  gql_errors : option (list value)
}.
Arguments mkGraphQLResponse {T}.
Arguments gql_data {T}.
Arguments gql_status {T}.
Arguments gql_errors {T}.

(** [createGraphQLError(message, response)]. *)
Definition createGraphQLError {T} (message : string)
  (response : GraphQLResponse T) : value :=
  VErr "Error" message
    [("response",
      VObj [("data",
             VObj [("errors",
                    VArr (match gql_errors response with
                          | Some errs => errs
                          | None =>
                              [VObj [("message",
                                      VPrim (PStr "Unknown GraphQL error"))]]
                          end))]);
            ("status", VPrim (PNum (gql_status response)))])].

(** [isGraphQLErrorResponse(error)]. *)
Definition isGraphQLErrorResponse (error : value) : bool :=
  if negb (truthy error) || negb (typeof_object error) then false
  else
    let response := prop error "response" in
    truthy response
    && typeof_object response
    && truthy (prop response "data")
    && typeof_object (prop response "data")
    && truthy (prop (prop response "data") "errors")
    && isArray (prop (prop response "data") "errors")
    && typeof_number (prop response "status").

(** The body of the answer to [query auth]: [data.login] (or [null]) and
    the optional [errors].  Only the fields the saga reads are kept. *)
Record LoginPayload : Type := mkLoginPayload {
  login_appToken : option string;
  login_user : option User.t
}.

Record LoginBody : Type := mkLoginBody {
  body_data : option (option LoginPayload);   (* data, then data.login *)
  body_errors : option (list value)
}.

(** Outcome of [octokit.users.getAuthenticated()]. *)
Inductive OctokitOutcome : Type :=
| OctokitThrows (e : value)
| OctokitReturns (data : option RestUser.t).

(** Outcome of [axios.post(GRAPHQL_ENDPOINT, ...)]. *)
Inductive AxiosOutcome : Type :=
| AxiosThrows (e : value)
| AxiosReturns (status : Z) (body : LoginBody).

(** The collaborators of one run of [onLoginRequest]. *)
Record World : Type := mkWorld {
  now : Z;                              (* new Date() *)
  getAuthenticated : OctokitOutcome;
  post : AxiosOutcome
}.

(** The synthetic free plan of local-only mode. *)
Definition local_plan (LOCAL_ONLY_PERSONAL_ACCESS_TOKEN : bool) (now : Z)
  : Plan.t :=
  {| Plan.id := "free";
     Plan.source := "none";
     Plan.type := None;
     Plan.status := "active";
     Plan.amount := 0;
     Plan.currency := "usd";
     Plan.trialPeriodDays := 0;
     Plan.intervalCount := 0;
     Plan.label := "Free";
     Plan.interval := None;
     Plan.quantity := None;
     Plan.startAt := Some now;
     Plan.cancelAt := None;
     Plan.cancelAtPeriodEnd := false;
     Plan.trialStartAt := None;
     Plan.trialEndAt := None;
     Plan.currentPeriodStartAt := Some now;
     Plan.currentPeriodEndAt := None;
     Plan.last4 := None;
     Plan.reason := None;
     Plan.users := None;
     Plan.featureFlags :=
       {| FeatureFlags.columnsLimit :=
            if LOCAL_ONLY_PERSONAL_ACCESS_TOKEN then 999 else -1;
          FeatureFlags.enableFilters := true;
          FeatureFlags.enableSync := false;
          FeatureFlags.enablePrivateRepositories := true;
          FeatureFlags.enablePushNotifications := false |};
     Plan.createdAt := Some now;
     Plan.updatedAt := Some now |}.

(** The synthetic user of local-only mode. *)
Definition local_user (LOCAL_ONLY_PERSONAL_ACCESS_TOKEN : bool)
  (appToken : string) (now : Z) (d : RestUser.t) : User.t :=
  {| User._id := String.append "github_" (tmpl (RestUser.id d));
     User.github := Some
       {| GitHubIdentity.app := None;
          GitHubIdentity.oauth := None;
          GitHubIdentity.personal := Some
            {| TokenDetails.token := appToken;
               TokenDetails.scope := ["repo"];
               TokenDetails.tokenType := Some "bearer";
               TokenDetails.tokenCreatedAt := Some now;
               TokenDetails.login := RestUser.login d |};
          GitHubIdentity.user := Some
            {| GitHubUser.id := RestUser.id d;
               GitHubUser.nodeId := RestUser.node_id d;
               GitHubUser.login := RestUser.login d;
               GitHubUser.name :=
                 or_prim (RestUser.name d) (RestUser.login d);
               GitHubUser.avatarUrl := RestUser.avatar_url d;
               GitHubUser.createdAt := RestUser.created_at d;
               GitHubUser.updatedAt := RestUser.updated_at d |} |};
     User.plan := Some (local_plan LOCAL_ONLY_PERSONAL_ACCESS_TOKEN now);
     User.createdAt := Some now;
     User.updatedAt := Some now;
     User.lastLoginAt := Some now |}.

(** [errors && errors.length]. *)
Definition has_errors (errors : option (list value)) : bool :=
  match errors with
  | Some (_ :: _) => true
  | _ => false
  end.

(** The validation of the backend answer: the user of [data.login] when
    [data], [data.login], [data.login.appToken], [data.login.user],
    [.github], [.github.user] and [.github.user.id] are all truthy. *)
Definition valid_login (data : option (option LoginPayload))
  : option User.t :=
  match data with
  | Some (Some l) =>
      match login_appToken l, login_user l with
      | Some tok, Some u =>
          if negb (String.eqb tok "") then
            match User.github u with
            | Some g =>
                match GitHubIdentity.user g with
                | Some gu =>
                    if truthy_prim (GitHubUser.id gu) then Some u else None
                | None => None
                end
            | None => None
            end
          else None
      | _, _ => None
      end
  | _ => None
  end.

(** The [try] block of [onLoginRequest]. *)
Definition login_attempt (LOCAL_ONLY_PERSONAL_ACCESS_TOKEN : bool)
  (appToken : string) (w : World) : M unit :=
  if LOCAL_ONLY_PERSONAL_ACCESS_TOKEN then
    match getAuthenticated w with
    | OctokitThrows e => throw e
    | OctokitReturns None => throw (new_Error "Invalid response from GitHub API")
    | OctokitReturns (Some d) =>
        emit (Put (loginSuccess appToken
                     (local_user LOCAL_ONLY_PERSONAL_ACCESS_TOKEN
                        appToken (now w) d)))
    end
  else
    match post w with
    | AxiosThrows e => throw e
    | AxiosReturns status body =>
        if has_errors (body_errors body) then
          throw (createGraphQLError "GraphQL Error"
                   {| gql_data := body;
                      gql_status := status;
                      gql_errors := body_errors body |})
        else
          match valid_login (body_data body) with
          | None => throw (new_Error "Invalid response")
          | Some u => emit (Put (loginSuccess appToken u))
          end
    end.

(** The normalisation done in the [catch] block. *)
Definition normalize (error : value) : AuthError.t :=
  let err := to_Error error "Unknown error" in
  {| AuthError.name := error_name err;
     AuthError.message := error_message err;
     AuthError.status :=
       if isGraphQLErrorResponse error
       then prop (prop error "response") "status" else undefined;
     AuthError.response :=
       if isGraphQLErrorResponse error
       then prop (prop error "response") "data" else undefined |}.

(** The [catch] block of [onLoginRequest]. *)
Definition login_failed (error : value) : M unit :=
  emit (ConsoleError [VPrim (PStr "Login failed"); error]) ;;
  emit (BugsnagNotify (to_Error error "Unknown error") None) ;;
  emit (Put (loginFailure (normalize error))).

(** [onLoginRequest(action)], with [appToken = action.payload.appToken]. *)
Definition onLoginRequest (LOCAL_ONLY_PERSONAL_ACCESS_TOKEN : bool)
  (appToken : string) (w : World) : M unit :=
  try_catch (login_attempt LOCAL_ONLY_PERSONAL_ACCESS_TOKEN appToken w)
            login_failed.

(** The callback of [errors.some(...)], run over the entries in order:
    [e.extensions && e.extensions.code === 'UNAUTHENTICATED'].  [None] is
    the [TypeError] of reading [extensions] on [undefined] or [null]. *)
Fixpoint some_unauthenticated (errors : list value) : option bool :=
  match errors with
  | [] => Some false
  | e :: rest =>
      match get e "extensions" with
      | None => None
      | Some ext =>
          if truthy ext && is_str (prop ext "code") "UNAUTHENTICATED"
          then Some true
          else some_unauthenticated rest
      end
  end.

(** The condition of the [if] of [onLoginFailure], [action.error] being
    present. *)
Definition must_logout (error : AuthError.t) : option bool :=
  if is_num (AuthError.status error) 401 then Some true
  else
    let response := AuthError.response error in
    if truthy response then
      if is_num (prop response "status") 401 then Some true
      else if truthy (prop response "data") then
        match prop (prop response "data") "errors" with
        | VArr errors => some_unauthenticated errors
        | _ => Some false
        end
      else Some false
    else Some false.

(** [onLoginFailure(action)], with [error = action.error]. *)
Definition onLoginFailure (error : option AuthError.t) : M unit :=
  match error with
  | None => ret tt
  | Some err =>
      match must_logout err with
      | None => throw TypeError
      | Some true => emit (Put logout)
      | Some false => ret tt
      end
  end.

End Saga.

(* ================================================================= *)
(** ** Credential validator (LoginHelpersContext.tsx) *)

Module LoginHelpers.

(** [typeof error === 'string' ? error : 'Unknown error']. *)
Definition string_or_unknown (error : value) : string :=
  match error with
  | VPrim (PStr s) => s
  | _ => "Unknown error"
  end.

(** The test before the early [return] of [handleAuthError]. *)
Definition suppressed (err : value) : bool :=
  String.eqb (error_message err) "Canceled"
  || String.eqb (error_message err) "Timeout".

(** [handleAuthError(error, description, dialog)]; [description = None]
    takes the default of the parameter. *)
Definition handleAuthError (error : value) (description : option string)
  : list effect :=
  let description :=
    match description with
    | Some d => d
    | None => "Authentication failed"
    end in
  let err := to_Error error (string_or_unknown error) in
  ([ConsoleError [VPrim (PStr description)]]
   ++ (if truthy error then [ConsoleError [error]] else [])
   ++ [BugsnagNotify err (Some description)]
   ++ (if suppressed err
       then []
       else [DialogShow "Login failed" (error_message err)]))%list.

(** JavaScript white space among the ASCII characters (what [\s] matches
    in a header value): tab, line feed, vertical tab, form feed, carriage
    return and space. *)
Definition is_space (c : ascii) : bool :=
  let n := nat_of_ascii c in
  ((9 <=? n)%nat && (n <=? 13)%nat) || (n =? 32)%nat.

(** [s.replace(/\s+/g, '')]. *)
Fixpoint remove_spaces (s : string) : string :=
  match s with
  | EmptyString => EmptyString
  | String c r =>
      if is_space c then remove_spaces r else String c (remove_spaces r)
  end.

(** [s.split(sep)] for a one-character separator: never an empty list. *)
Fixpoint split (sep : ascii) (s : string) : list string :=
  match s with
  | EmptyString => [EmptyString]
  | String c r =>
      if Ascii.eqb c sep then EmptyString :: split sep r
      else
        match split sep r with
        | h :: t => String c h :: t
        | [] => [String c EmptyString]
        end
  end.

Definition comma : ascii := ascii_of_nat 44.

Definition nonempty (s : string) : bool := negb (String.eqb s "").

(** The parsing of the [x-oauth-scopes] header:
    [`${h || ''}`.replace(/\s+/g, '').split(',').filter(Boolean)]. *)
Definition parse_scopes (header : prim) : list string :=
  filter nonempty
    (split comma (remove_spaces (tmpl (or_prim header (PStr ""))))).

(** [scope.includes(s)]. *)
Definition includes (scope : list string) (s : string) : bool :=
  existsb (String.eqb s) scope.

Definition quote : string := String (ascii_of_nat 34) EmptyString.

Definition missing_repo_message : string :=
  String.append "You didn't include the "
    (String.append quote
       (String.append "repo"
          (String.append quote
             (String.append " permission scope,"
                (String.append
                   " which is required to have access to private repositories."
                   " Your token will be safe on your device, and will never be sent to DevHub's server."))))).

(** The message of the account-mismatch error. *)
Definition different_user_message (id login loggedGitHubUserId
  loggedGitHubUsername : prim) : string :=
  let details :=
    if negb (prim_eqb login loggedGitHubUsername)
    then String.append " ("
           (String.append (tmpl login)
              (String.append " instead of "
                 (String.append (tmpl loggedGitHubUsername) ")")))
    else String.append " (ID "
           (String.append (tmpl id)
              (String.append " instead of "
                 (String.append (tmpl loggedGitHubUserId) ")"))) in
  String.append "This Personal Access Token seems to be from a different user"
    (String.append details ".").

(** One entry of the [errors] array of the backend. *)
Record GraphQLError : Type := mkGraphQLError { message : prim }.

(** Body of the answer to the [loginWithPersonalAccessToken] mutation:
    [data], [data.loginWithPersonalAccessToken], then its [appToken]. *)
Record ExchangeBody : Type := mkExchangeBody {
  data : option (option (option string));
  errors : option (list GraphQLError)
}.

(** Outcome of [axios.get(`${githubBaseApiUrl}/user`)]: the answer's
    [data] and its [x-oauth-scopes] header. *)
Inductive GetOutcome : Type :=
| GetThrows (e : value)
| GetReturns (data : option RestUser.t) (x_oauth_scopes : prim).

(** Outcome of the [axios.post] of the mutation. *)
Inductive PostOutcome : Type :=
| PostThrows (e : value)
| PostReturns (body : ExchangeBody).

(** What the hooks and collaborators give to one call. *)
Record Context : Type := mkContext {
  LOCAL_ONLY_PERSONAL_ACCESS_TOKEN : bool;
  loggedGitHubUserId : prim;
  loggedGitHubUsername : prim;
  prompt : option string;          (* promptForPersonalAcessToken() *)
  now : Z;                         (* new Date() *)
  get_user : GetOutcome;
  post_exchange : PostOutcome
}.

(** The identity check: [response?.data?.id && response.data.login]. *)
Definition identity_of (data : option RestUser.t) : option RestUser.t :=
  match data with
  | Some d =>
      if truthy_prim (RestUser.id d) && truthy_prim (RestUser.login d)
      then Some d else None
  | None => None
  end.

(** The account check: a logged account whose id renders differently. *)
Definition different_user (d : RestUser.t) (loggedId : prim) : bool :=
  truthy_prim loggedId
  && negb (String.eqb (tmpl (RestUser.id d)) (tmpl loggedId)).

(** The scope check: [scope.length && !scope.includes('repo')]. *)
Definition missing_repo (scope : list string) : bool :=
  match scope with
  | [] => false
  | _ :: _ => negb (includes scope "repo")
  end.

(** The last step of the [try] block: adopt the token. *)
Definition adopt (c : Context) (token : string) (d : RestUser.t)
  (scope : list string) : M unit :=
  if LOCAL_ONLY_PERSONAL_ACCESS_TOKEN c then
    emit (Dispatch (replacePersonalTokenDetails (Some
            {| TokenDetails.token := token;
               TokenDetails.scope := scope;
               TokenDetails.tokenType := None;
               TokenDetails.tokenCreatedAt := Some (now c);
               TokenDetails.login := RestUser.login d |}))) ;;
    emit (Dispatch (loginRequest token))
  else
    match post_exchange c with
    | PostThrows e => throw e
    | PostReturns body =>
        match errors body with
        | Some (e :: _) =>
            throw (new_Error
                     (tmpl (or_prim (message e) (PStr "GraphQL Error"))))
        | _ =>
            match data body with
            | Some (Some (Some appToken)) =>
                if nonempty appToken
                then emit (Dispatch (loginRequest appToken))
                else throw (new_Error "Invalid response")
            | _ => throw (new_Error "Invalid response")
            end
        end
    end.

(** The checks on the answer of the identity endpoint, then adoption. *)
Definition validate (c : Context) (token : string)
  (data : option RestUser.t) (x_oauth_scopes : prim) : M unit :=
  match identity_of data with
  | None => throw (new_Error "Invalid response from GitHub API")
  | Some d =>
      if different_user d (loggedGitHubUserId c) then
        throw (new_Error
                 (different_user_message (RestUser.id d) (RestUser.login d)
                    (loggedGitHubUserId c) (loggedGitHubUsername c)))
      else
        let scope := parse_scopes x_oauth_scopes in
        if missing_repo scope then throw (new_Error missing_repo_message)
        else adopt c token d scope
  end.

(** The [try] block of [loginWithGitHubPersonalAccessToken]. *)
Definition pat_attempt (c : Context) : M unit :=
  emit (TrackEvent "engagement" "login") ;;
  match prompt c with
  | None => throw (new_Error "Canceled")
  | Some token =>
      if negb (nonempty token) then throw (new_Error "Canceled")
      else
        emit (SetIsExecutingOAuth true) ;;
        emit (SetPATLoadingState (Some "adding")) ;;
        match get_user c with
        | GetThrows e => throw e
        | GetReturns data x_oauth_scopes =>
            validate c token data x_oauth_scopes ;;
            emit (SetIsExecutingOAuth false) ;;
            emit (SetPATLoadingState None)
        end
  end.

(** [loginWithGitHubPersonalAccessToken()]. *)
Definition loginWithGitHubPersonalAccessToken (c : Context) : M unit :=
  try_catch (pat_attempt c)
    (fun error =>
       (handleAuthError error (Some "Personal access token login failed"),
        inr tt) ;;
       emit (SetIsExecutingOAuth false) ;;
       emit (SetPATLoadingState None)).

End LoginHelpers.

(* ================================================================= *)
(** ** Sample data used to instantiate the theorems *)

(** A paid plan whose trial boundary is [t]. *)
Definition plan_with_trial (t : option Timestamp) : Plan.t :=
  {| Plan.id := "pro";
     Plan.source := "stripe";
     Plan.type := Some "individual";
     Plan.status := "trialing";
     Plan.amount := 1000;
     Plan.currency := "usd";
     Plan.trialPeriodDays := 14;
     Plan.intervalCount := 1;
     Plan.label := "Pro";
     Plan.interval := Some "month";
     Plan.quantity := Some 1;
     Plan.startAt := Some 0;
     Plan.cancelAt := None;
     Plan.cancelAtPeriodEnd := false;
     Plan.trialStartAt := Some 0;
     Plan.trialEndAt := t;
     Plan.currentPeriodStartAt := Some 0;
     Plan.currentPeriodEndAt := None;
     Plan.last4 := None;
     Plan.reason := None;
     Plan.users := None;
     Plan.featureFlags :=
       {| FeatureFlags.columnsLimit := 20;
          FeatureFlags.enableFilters := true;
          FeatureFlags.enableSync := true;
          FeatureFlags.enablePrivateRepositories := true;
          FeatureFlags.enablePushNotifications := true |};
     Plan.createdAt := Some 0;
     Plan.updatedAt := Some 0 |}.

Definition octocat : GitHubUser.t :=
  {| GitHubUser.id := PNum 583231;
     GitHubUser.nodeId := PStr "MDQ6VXNlcjU4MzIzMQ==";
     GitHubUser.login := PStr "octocat";
     GitHubUser.name := PStr "The Octocat";
     GitHubUser.avatarUrl := PStr "https://github.com/images/octocat.gif";
     GitHubUser.createdAt := PUndef;
     GitHubUser.updatedAt := PUndef |}.

(** A backend user last logged in at [last], on plan [p]. *)
Definition user_on (p : Plan.t) (last : Timestamp) : User.t :=
  {| User._id := "u1";
     User.github := Some
       {| GitHubIdentity.app := None;
          GitHubIdentity.oauth := None;
          GitHubIdentity.personal := None;
          GitHubIdentity.user := Some octocat |};
     User.plan := Some p;
     User.createdAt := Some 0;
     User.updatedAt := Some 0;
     User.lastLoginAt := Some last |}.

(** The error of an HTTP 401 answer, and the normalised error of a
    GraphQL answer refused with HTTP 403. *)
Definition unauthorized_error : AuthError.t :=
  {| AuthError.name := "Error";
     AuthError.message := "Request failed with status code 401";
     AuthError.status := VPrim (PNum 401);
     AuthError.response := undefined |}.

Definition forbidden_error : AuthError.t :=
  {| AuthError.name := "Error";
     AuthError.message := "GraphQL Error";
     AuthError.status := VPrim (PNum 403);
     AuthError.response :=
       VObj [("errors",
              VArr [VObj [("message", VPrim (PStr "Forbidden"))]])] |}.

(** The answer of [GET /user] for the octocat account. *)
Definition octocat_rest : RestUser.t :=
  {| RestUser.id := PNum 583231;
     RestUser.node_id := PStr "MDQ6VXNlcjU4MzIzMQ==";
     RestUser.login := PStr "octocat";
     RestUser.name := PNull;
     RestUser.avatar_url := PStr "https://github.com/images/octocat.gif";
     RestUser.created_at := PStr "2011-01-25T18:44:36Z";
     RestUser.updated_at := PStr "2011-01-25T18:44:36Z" |}.


(** A call of the personal-token login: the account [loggedId] /
    [loggedName] is logged in, the user pastes "ghp_token", GitHub answers
    with the octocat and grants [scopes]. *)
Definition paste_token (loggedId loggedName : prim) (scopes : string)
  : LoginHelpers.Context :=
  {| LoginHelpers.LOCAL_ONLY_PERSONAL_ACCESS_TOKEN := true;
     LoginHelpers.loggedGitHubUserId := loggedId;
     LoginHelpers.loggedGitHubUsername := loggedName;
     LoginHelpers.prompt := Some "ghp_token";
     LoginHelpers.now := 5000;
     LoginHelpers.get_user :=
       LoginHelpers.GetReturns (Some octocat_rest) (PStr scopes);
     LoginHelpers.post_exchange := LoginHelpers.PostThrows undefined |}.

(** A call of the personal-token login in which the user cancels. *)
Definition cancel_prompt : LoginHelpers.Context :=
  {| LoginHelpers.LOCAL_ONLY_PERSONAL_ACCESS_TOKEN := true;
     LoginHelpers.loggedGitHubUserId := PUndef;
     LoginHelpers.loggedGitHubUsername := PUndef;
     LoginHelpers.prompt := None;
     LoginHelpers.now := 5000;
     LoginHelpers.get_user := LoginHelpers.GetThrows undefined;
     LoginHelpers.post_exchange := LoginHelpers.PostThrows undefined |}.

(** A run of the exchanger in which the backend answers HTTP 200 with a
    session whose [appToken] is [fresh]. *)
Definition backend_world (fresh : string) : Saga.World :=
  {| Saga.now := 0;
     Saga.getAuthenticated := Saga.OctokitReturns None;
     Saga.post := Saga.AxiosReturns 200
       {| Saga.body_data := Some (Some
            {| Saga.login_appToken := Some fresh;
               Saga.login_user := Some (user_on (plan_with_trial None) 0) |});
          Saga.body_errors := None |} |}.

(** The error axios throws for an HTTP 500 answer whose body holds an
    empty [errors] array. *)
Definition http_500_error : value :=
  VErr "Error" "Request failed with status code 500"
    [("response",
      VObj [("data", VObj [("errors", VArr [])]);
            ("status", VPrim (PNum 500))])].

(** The state the keeper reads for a logged user. *)
Definition logged (tok : string) (u : User.t) : Keeper.Snapshot :=
  {| Keeper.appToken := Some tok;
     Keeper.isLogged := true;
     Keeper.user := Some u;
     Keeper.plan := User.plan u |}.

(* ================================================================= *)
(** ** The properties, in the specification's words *)

(** The error shape, read off the path [v.response.data.errors] and
    [v.response.status]: [errors] is an array that [array_ok] accepts and
    [status] is a number. *)
Definition graphql_shape (array_ok : list value -> bool) (v : value) : bool :=
  match prop (prop (prop v "response") "data") "errors" with
  | VArr items =>
      array_ok items && typeof_number (prop (prop v "response") "status")
  | _ => false
  end.

(** The shape as the specification words it: a non-empty array. *)
Definition spec_shape : value -> bool :=
  graphql_shape (fun items => match items with [] => false | _ => true end).

(** The shape with any array, empty or not. *)
Definition array_shape : value -> bool := graphql_shape (fun _ => true).

(** The body of the error carries a nested [response.status] of 401. *)
Definition nested_401 (err : AuthError.t) : bool :=
  is_num (prop (AuthError.response err) "status") 401.

(** The body of the error carries a GraphQL error tagged UNAUTHENTICATED,
    at the path the reactor reads: [response.data.errors]. *)
Definition tagged_unauthenticated (err : AuthError.t) : Prop :=
  exists (errors : list value) (e ext : value),
    prop (prop (AuthError.response err) "data") "errors" = VArr errors
    /\ In e errors
    /\ get e "extensions" = Some ext
    /\ prop ext "code" = VPrim (PStr "UNAUTHENTICATED").

(** The scopes as the specification words the parsing: split on commas,
    strip the white space of each entry, drop the empty entries. *)
Definition parse_scopes_spec (header : prim) : list string :=
  filter LoginHelpers.nonempty
    (map LoginHelpers.remove_spaces
       (LoginHelpers.split LoginHelpers.comma
          (tmpl (or_prim header (PStr ""))))).

(** [s.includes(sub)] on strings. *)
Definition contains (sub s : string) : bool :=
  match String.index 0 sub s with
  | Some _ => true
  | None => false
  end.

(** The effects of a personal-token login that fails with [e] after the
    request to the identity endpoint was sent. *)
Definition rejected_with (e : value) : list effect :=
  ([TrackEvent "engagement" "login";
    SetIsExecutingOAuth true;
    SetPATLoadingState (Some "adding")]
   ++ LoginHelpers.handleAuthError e
        (Some "Personal access token login failed")
   ++ [SetIsExecutingOAuth false; SetPATLoadingState None])%list.

(* ================================================================= *)
(** ** The remaining sagas of sagas/auth.ts *)

(** Actions of redux/actions emitted by the remaining sagas. *)
Inductive more_action : Type :=
| cleanupArchivedItems
| deleteAccountSuccess
| deleteAccountFailure (error : value).

(** Effects of the remaining sagas and helpers: those of [effect], and the
    calls to further collaborators. *)
Inductive reaction : Type :=
| Base (e : effect)
| PutMore (a : more_action)                   (* yield put(a) *)
| ClearOAuthQueryParams                       (* clearOAuthQueryParams() *)
| RequestReview                               (* StoreReview.requestReview() *)
| ClearOctokitInstances                       (* github.clearOctokitInstances() *)
| AnalyticsSetUser (id : option string)
| AnalyticsSetDimensions (dark_theme_id light_theme_id : string)
    (plan_amount : Z) (theme_id : string)
| BugsnagSetUser (id : string) (label : prim)
| AlertAlert (title message : string)         (* Alert.alert(title, msg) *)
| SetFullAccessRef (b : bool)                 (* fullAccessRef.current = b *)
| ExecuteOAuth (scope : list string)          (* executeOAuth('both', {scope}) *)
| ShowTokenPrompt (message : string)          (* dialog.show('Personal Access Token', ...) *)
| OpenNewTokenPage (description : string) (scopes : list string).
                                              (* Browser.openURLOnNewTab(...) *)

Definition is_review (r : reaction) : bool :=
  match r with
  | RequestReview => true
  | _ => false
  end.

Definition is_delete_success (r : reaction) : bool :=
  match r with
  | PutMore deleteAccountSuccess => true
  | _ => false
  end.

Definition is_delete_failure (r : reaction) : bool :=
  match r with
  | PutMore (deleteAccountFailure _) => true
  | _ => false
  end.

Definition is_open_page (r : reaction) : bool :=
  match r with
  | OpenNewTokenPage _ _ => true
  | _ => false
  end.

Definition is_base_login_request (r : reaction) : bool :=
  match r with
  | Base e => is_login_request e
  | _ => false
  end.

Definition is_base_dialog (r : reaction) : bool :=
  match r with
  | Base e => is_dialog e
  | _ => false
  end.

(** JavaScript [ToString] of a value: a plain object renders as
    [[object Object]], an array joins its items with commas ([undefined] and
    [null] items render empty), an [Error] renders by
    [Error.prototype.toString]. *)
Fixpoint to_string (v : value) : string :=
  match v with
  | VPrim p => tmpl p
  | VArr items =>
      String.concat ","
        (map (fun x => match x with
                       | VPrim PUndef | VPrim PNull => ""
                       | _ => to_string x
                       end) items)
  | VObj _ => "[object Object]"
  | VErr name message _ =>
      if String.eqb name "" then message
      else if String.eqb message "" then name
      else String.append name (String.append ": " message)
  end.

(** [s.trim()], for the ASCII white space. *)
Fixpoint trim_left (s : string) : string :=
  match s with
  | EmptyString => EmptyString
  | String c r => if LoginHelpers.is_space c then trim_left r else s
  end.

Fixpoint trim_right (s : string) : string :=
  match s with
  | EmptyString => EmptyString
  | String c r =>
      match trim_right r with
      | EmptyString =>
          if LoginHelpers.is_space c then EmptyString
          else String c EmptyString
      | r' => String c r'
      end
  end.

Definition trim (s : string) : string := trim_right (trim_left s).

Definition newline : string := String (ascii_of_nat 10) EmptyString.

Module Reactor.

(** [onRehydrate()], [appToken] being what [appTokenSelector] returns. *)
Definition onRehydrate (appToken : option string) : list effect :=
  match appToken with
  | Some tok =>
      if LoginHelpers.nonempty tok then [Put (loginRequest tok)] else []
  | None => []
  end.

(** [onLoginSuccess(_action)]: [isAvailable] is [StoreReview.isAvailable],
    [dev] is [__DEV__], [loginCount] the [loginSuccess] counter. *)
Definition onLoginSuccess (isAvailable dev : bool) (loginCount : Z)
  : list reaction :=
  ([ClearOAuthQueryParams]
   ++ (if isAvailable && negb dev then
         if (loginCount >=? 5) && (Z.rem loginCount 5 =? 0)
         then [RequestReview] else []
       else [])
   ++ [PutMore cleanupArchivedItems])%list.

(** What the selectors of [updateLoggedUserOnTools] return. *)
Record ToolsView : Type := mkToolsView {
  preferredDarkThemePair_id : string;
  preferredLightThemePair_id : string;
  themePair_id : string;
  user : option User.t;
  githubUser : option GitHubUser.t;
  plan : option Plan.t
}.

(** [(githubUser && (githubUser.login || githubUser.name || githubUser.id))
    || '']. *)
Definition bugsnag_label (g : option GitHubUser.t) : prim :=
  or_prim
    (match g with
     | Some gu =>
         or_prim (or_prim (GitHubUser.login gu) (GitHubUser.name gu))
                 (GitHubUser.id gu)
     | None => PUndef
     end)
    (PStr "").

(** [updateLoggedUserOnTools()]. *)
Definition updateLoggedUserOnTools (v : ToolsView) : list reaction :=
  [AnalyticsSetUser (option_map User._id (user v));
   AnalyticsSetDimensions
     (preferredDarkThemePair_id v)
     (preferredLightThemePair_id v)
     (match plan v with
      | Some p => if Plan.amount p =? 0 then 0 else Plan.amount p
      | None => 0
      end)
     (themePair_id v);
   BugsnagSetUser
     (match user v with
      | Some u => if String.eqb (User._id u) "" then "" else User._id u
      | None => ""
      end)
     (bugsnag_label (githubUser v))].

(** [onLogout()]. *)
Definition onLogout : list reaction :=
  [ClearOctokitInstances; ClearOAuthQueryParams].

(** Body of the answer to the [deleteAccount] mutation: [data] (when
    present, its [deleteAccount] field) and the optional [errors]. *)
Record DeleteBody : Type := mkDeleteBody {
  delete_data : option prim;
  delete_errors : option (list value)
}.

Inductive DeleteOutcome : Type :=
| DeleteThrows (e : value)
| DeleteReturns (status : Z) (body : DeleteBody).

(** [data && typeof data.deleteAccount === 'boolean']. *)
Definition is_boolean_answer (data : option prim) : bool :=
  match data with
  | Some (PBool _) => true
  | _ => false
  end.

(** [data && data.deleteAccount]. *)
Definition is_deleted (data : option prim) : bool :=
  match data with
  | Some p => truthy_prim p
  | None => false
  end.

(** The [try] block of [onDeleteAccountRequest]: the thrown value, or the
    effects of the normal end. *)
Definition delete_attempt (post : DeleteOutcome) : value + list reaction :=
  match post with
  | DeleteThrows e => inl e
  | DeleteReturns status body =>
      if Saga.has_errors (delete_errors body) then
        inl (Saga.createGraphQLError "GraphQL Error"
               {| Saga.gql_data := body;
                  Saga.gql_status := status;
                  Saga.gql_errors := delete_errors body |})
      else if negb (is_boolean_answer (delete_data body)) then
        inl (new_Error "Invalid response")
      else if negb (is_deleted (delete_data body)) then
        inl (new_Error "Failed to delete account")
      else inr [PutMore deleteAccountSuccess]
  end.

(** The error handed to [deleteAccountFailure] in the [catch] block. *)
Definition delete_error (error : value) : value :=
  if Saga.isGraphQLErrorResponse error then error
  else new_Error (error_message (to_Error error "Unknown error")).

(** [onDeleteAccountRequest()]. *)
Definition onDeleteAccountRequest (post : DeleteOutcome) : list reaction :=
  match delete_attempt post with
  | inr l => l
  | inl error =>
      [Base (ConsoleError [VPrim (PStr "Delete account failed"); error]);
       Base (BugsnagNotify (to_Error error "Unknown error") None);
       PutMore (deleteAccountFailure (delete_error error))]
  end.

(** [(action.error && action.error.message) || action.error || '']. *)
Definition failure_detail (error : value) : value :=
  let a := if truthy error then prop error "message" else error in
  let b := if truthy a then a else error in
  if truthy b then b else VPrim (PStr "").

(** The text of the alert of [onDeleteAccountFailure]. *)
Definition delete_alert_text (error : value) : string :=
  trim (String.append "Failed to delete account. Please try again."
          (String.append newline
             (String.append newline (to_string (failure_detail error))))).

(** [onDeleteAccountFailure(action)], with [error = action.error]. *)
Definition onDeleteAccountFailure (error : value) : list reaction :=
  [Base (BugsnagNotify error None);
   AlertAlert "Oops." (delete_alert_text error)].

(** [onDeleteAccountSuccess()]. *)
Definition onDeleteAccountSuccess : list effect := [Put logout].

End Reactor.

(* ================================================================= *)
(** ** The remaining helpers of LoginHelpersContext.tsx *)

Module MoreHelpers.

(** Outcome of [executeOAuth] followed by [tryParseOAuthParams] (both of
    other modules): what one of them throws, or the [appToken] the second
    extracts. *)
Inductive OAuthOutcome : Type :=
| OAuthThrows (e : value)
| OAuthReturns (appToken : option string).

(** The [catch] block of [loginWithGitHub]. *)
Definition oauth_failed (error : value) : list reaction :=
  (map Base (LoginHelpers.handleAuthError error
               (Some "OAuth execution failed"))
   ++ [Base (SetIsExecutingOAuth false)])%list.

(** [loginWithGitHub({ fullAccess })]; [DEFAULT_GITHUB_OAUTH_SCOPES] is
    the constant of @devhub/core. *)
Definition loginWithGitHub (DEFAULT_GITHUB_OAUTH_SCOPES : list string)
  (fullAccess : bool) (oauth : OAuthOutcome) : list reaction :=
  ([SetFullAccessRef fullAccess;
    Base (SetIsExecutingOAuth true);
    Base (TrackEvent "engagement" "login");
    ExecuteOAuth
      (if fullAccess then (DEFAULT_GITHUB_OAUTH_SCOPES ++ ["repo"])%list
       else DEFAULT_GITHUB_OAUTH_SCOPES)]
   ++ match oauth with
      | OAuthThrows e => oauth_failed e
      | OAuthReturns appToken =>
          ClearOAuthQueryParams
          :: match appToken with
             | Some tok =>
                 if LoginHelpers.nonempty tok
                 then [Base (Dispatch (loginRequest tok));
                       Base (SetIsExecutingOAuth false)]
                 else oauth_failed (new_Error "No app token")
             | None => oauth_failed (new_Error "No app token")
             end
      end)%list.

(** The flags and names of [Platform] that the prompt reads. *)
Record Platform : Type := mkPlatform {
  isMacOS : bool;
  isElectron : bool;
  isDesktop : bool;
  isPad : bool;
  OS : string;
  realOS : string
}.

(** The description of the token to create. *)
Definition token_description (p : Platform) : string :=
  if isMacOS p then "DevHub (macOS native)"
  else if isElectron p
  then String.append "DevHub (" (String.append (realOS p) ")")
  else if isDesktop p
  then String.append "DevHub (" (String.append (realOS p) ")")
  else if isPad p then "DevHub (iPad)"
  else if String.eqb (OS p) "ios" then "DevHub (iOS)"
  else String.append "DevHub (" (String.append (OS p) ")").

(** [_.uniq]: the first occurrence of each entry, in order. *)
Fixpoint uniq_from (seen l : list string) : list string :=
  match l with
  | [] => []
  | x :: rest =>
      if existsb (String.eqb x) seen then uniq_from seen rest
      else x :: uniq_from (x :: seen) rest
  end.

Definition uniq (l : list string) : list string := uniq_from [] l.

(** [FULL_ACCESS_GITHUB_OAUTH_SCOPES ||
    _.uniq([...DEFAULT_GITHUB_OAUTH_SCOPES, 'repo'])]. *)
Definition new_token_scopes (FULL_ACCESS_GITHUB_OAUTH_SCOPES
  : option (list string)) (DEFAULT_GITHUB_OAUTH_SCOPES : list string)
  : list string :=
  match FULL_ACCESS_GITHUB_OAUTH_SCOPES with
  | Some l => l
  | None => uniq (DEFAULT_GITHUB_OAUTH_SCOPES ++ ["repo"])%list
  end.

(** What the user does with one prompt. *)
Inductive Answer : Type :=
| Continue (value : string)
| CreateNewToken
| Cancel.

(** The constants and the platform of the prompt. *)
Record PromptEnv : Type := mkPromptEnv {
  LOCAL_ONLY_PERSONAL_ACCESS_TOKEN : bool;
  FULL_ACCESS_GITHUB_OAUTH_SCOPES : option (list string);
  DEFAULT_GITHUB_OAUTH_SCOPES : list string;
  platform : Platform
}.

Definition prompt_message (env : PromptEnv) : string :=
  if LOCAL_ONLY_PERSONAL_ACCESS_TOKEN env
  then "It will be stored safely on your local device and only be sent directly to GitHub."
  else "Enable private repository access.".

(** [promptForPersonalAcessToken()], driven by the answers the user gives
    to the successive prompts.  The result is [None] while the last prompt
    shown is unanswered, [Some token] once the promise resolves ([token]
    being [None] for [undefined]). *)
Fixpoint promptForPersonalAcessToken (env : PromptEnv)
  (answers : list Answer) : list reaction * option (option string) :=
  match answers with
  | [] => ([ShowTokenPrompt (prompt_message env)], None)
  | Continue value :: _ =>
      ([ShowTokenPrompt (prompt_message env)], Some (Some value))
  | Cancel :: _ => ([ShowTokenPrompt (prompt_message env)], Some None)
  | CreateNewToken :: rest =>
      let (l, r) := promptForPersonalAcessToken env rest in
      (ShowTokenPrompt (prompt_message env)
       :: OpenNewTokenPage (token_description (platform env))
            (new_token_scopes (FULL_ACCESS_GITHUB_OAUTH_SCOPES env)
               (DEFAULT_GITHUB_OAUTH_SCOPES env))
       :: l, r)
  end.

(** [removePersonalAccessToken()]. *)
Definition removePersonalAccessToken : list effect :=
  [SetPATLoadingState (Some "removing");
   Dispatch (replacePersonalTokenDetails None);
   SetPATLoadingState None].

End MoreHelpers.

(** A pass that falls in the five minutes after the trial boundary of an
    unchanged, recently logged session. *)
Definition in_expiry_window (tok : string) (u : User.t) (last t : Timestamp)
  (pass : Z * Keeper.Snapshot) : Prop :=
  Keeper.session (snd pass) = Some (tok, u)
  /\ User.lastLoginAt u = Some last
  /\ Keeper.trialEndAt (Keeper.plan (snd pass)) = Some t
  /\ fst pass - last <= 1000 * 60 * 60 * 12
  /\ t <= fst pass
  /\ fst pass - t < 1000 * 60 * 5.

(** Five passes one minute apart, the first at the trial boundary [t] of
    a session logged in one hour before. *)
Definition expiry_passes (t : Timestamp) : list (Z * Keeper.Snapshot) :=
  map (fun k =>
         (t + 1000 * 60 * k,
          logged "app-token"
            (user_on (plan_with_trial (Some t)) (t - 1000 * 60 * 60))))
      [0; 1; 2; 3; 4].

Definition is_login_success (e : effect) : bool :=
  match e with
  | Put (loginSuccess _ _) => true
  | _ => false
  end.

Definition is_login_failure (e : effect) : bool :=
  match e with
  | Put (loginFailure _) => true
  | _ => false
  end.

(** An entry of an [errors] array that is tagged UNAUTHENTICATED. *)
Definition tagged_entry (e : value) : Prop :=
  exists ext : value,
    get e "extensions" = Some ext
    /\ prop ext "code" = VPrim (PStr "UNAUTHENTICATED").

(** A GraphQL error entry tagged UNAUTHENTICATED. *)
Definition unauthenticated_entry : value :=
  VObj [("message", VPrim (PStr "Not logged"));
        ("extensions", VObj [("code", VPrim (PStr "UNAUTHENTICATED"))])].

(** A run of the exchanger in which the backend answers [status] with the
    GraphQL errors [errors]. *)
Definition graphql_error_world (status : Z) (errors : list value)
  : Saga.World :=
  {| Saga.now := 0;
     Saga.getAuthenticated := Saga.OctokitReturns None;
     Saga.post := Saga.AxiosReturns status
       {| Saga.body_data := Some None;
          Saga.body_errors := Some errors |} |}.

(** An error whose body holds [errors] where the reactor reads them. *)
Definition error_with_entries (errors : list value) : AuthError.t :=
  {| AuthError.name := "Error";
     AuthError.message := "Request failed with status code 403";
     AuthError.status := VPrim (PNum 403);
     AuthError.response :=
       VObj [("status", VPrim (PNum 403));
             ("data", VObj [("errors", VArr errors)])] |}.

(** The first sentence of the alert of a failed account deletion. *)
Definition delete_alert_head : string :=
  "Failed to delete account. Please try again.".

Definition count_review (l : list reaction) : nat :=
  List.length (filter is_review l).

(** The checks on the answer of the identity endpoint all pass. *)
Definition checks_pass (c : LoginHelpers.Context)
  (data : option RestUser.t) (hdr : prim) : Prop :=
  exists d : RestUser.t,
    LoginHelpers.identity_of data = Some d
    /\ LoginHelpers.different_user d (LoginHelpers.loggedGitHubUserId c)
       = false
    /\ LoginHelpers.missing_repo (LoginHelpers.parse_scopes hdr) = false.

(** The application token [t] the login is entitled to request a session
    with: the pasted token in local-only mode, and otherwise the non-empty
    [appToken] of an answer of the backend that has no errors. *)
Definition granted (c : LoginHelpers.Context) (token t : string) : Prop :=
  if LoginHelpers.LOCAL_ONLY_PERSONAL_ACCESS_TOKEN c then t = token
  else exists body : LoginHelpers.ExchangeBody,
         LoginHelpers.post_exchange c = LoginHelpers.PostReturns body
         /\ (LoginHelpers.errors body = None
             \/ LoginHelpers.errors body = Some [])
         /\ LoginHelpers.data body = Some (Some (Some t))
         /\ LoginHelpers.nonempty t = true.

(** Every character of [s] satisfies [f]. *)
Fixpoint string_forall (f : ascii -> bool) (s : string) : bool :=
  match s with
  | EmptyString => true
  | String c r => f c && string_forall f r
  end.

(** A scope name: not empty, without white space and without comma. *)
Definition scope_name (s : string) : Prop :=
  s <> EmptyString
  /\ string_forall
       (fun c => negb (LoginHelpers.is_space c)
                 && negb (Ascii.eqb c LoginHelpers.comma)) s = true.

(** A call of the personal-token login in which the user presses
    Continue on an empty field. *)
Definition empty_token_prompt : LoginHelpers.Context :=
  {| LoginHelpers.LOCAL_ONLY_PERSONAL_ACCESS_TOKEN := false;
     LoginHelpers.loggedGitHubUserId := PUndef;
     LoginHelpers.loggedGitHubUsername := PUndef;
     LoginHelpers.prompt := Some "";
     LoginHelpers.now := 0;
     LoginHelpers.get_user :=
       LoginHelpers.GetReturns (Some octocat_rest) (PStr "repo");
     LoginHelpers.post_exchange := LoginHelpers.PostThrows undefined |}.

Definition is_token_prompt (r : reaction) : bool :=
  match r with
  | ShowTokenPrompt _ => true
  | _ => false
  end.

(** The token a prompt resolves with for an answer that ends it. *)
Definition answered (a : MoreHelpers.Answer) : option string :=
  match a with
  | MoreHelpers.Continue value => Some value
  | _ => None
  end.

(** The error Octokit throws for an HTTP 401 answer of GitHub. *)
Definition bad_credentials : value :=
  VErr "HttpError" "Bad credentials"
    [("status", VPrim (PNum 401));
     ("response",
      VObj [("status", VPrim (PNum 401));
            ("data", VObj [("message", VPrim (PStr "Bad credentials"))])])].

(** A desktop build in backend-mediated mode. *)
Definition desktop_env : MoreHelpers.PromptEnv :=
  {| MoreHelpers.LOCAL_ONLY_PERSONAL_ACCESS_TOKEN := false;
     MoreHelpers.FULL_ACCESS_GITHUB_OAUTH_SCOPES := None;
     MoreHelpers.DEFAULT_GITHUB_OAUTH_SCOPES := ["notifications"; "read:user"];
     MoreHelpers.platform :=
       {| MoreHelpers.isMacOS := false;
          MoreHelpers.isElectron := true;
          MoreHelpers.isDesktop := true;
          MoreHelpers.isPad := false;
          MoreHelpers.OS := "web";
          MoreHelpers.realOS := "linux" |} |}.

(** The body of a backend answer that reports one UNAUTHENTICATED error,
    and the error axios throws when that answer comes with HTTP 401. *)
Definition unauthenticated_body : value :=
  VObj [("data", VPrim PNull); ("errors", VArr [unauthenticated_entry])].

Definition http_401_error : value :=
  VErr "AxiosError" "Request failed with status code 401"
    [("response",
      VObj [("data", unauthenticated_body);
            ("status", VPrim (PNum 401))])].

(** A run of the exchanger in which axios throws [error]. *)
Definition throwing_world (error : value) : Saga.World :=
  {| Saga.now := 0;
     Saga.getAuthenticated := Saga.OctokitReturns None;
     Saga.post := Saga.AxiosThrows error |}.

(* ================================================================= *)
(** ** Session keeper: theorems *)

Section KeeperFacts.

Import Keeper.

Variables (now : Z) (st : Snapshot) (tok : string) (u : User.t)
          (last : Timestamp).
Hypothesis Hsession : session st = Some (tok, u).
Hypothesis Hlast : User.lastLoginAt u = Some last.

Lemma iteration_ready (reloadable : bool) :
  iteration reloadable now st =
    if reload_branch reloadable now last then
      Reload :: generic_delay (plan st) now
    else if refresh_branch now last then
      Put (loginRequest tok) :: generic_delay (plan st) now
    else if trial_just_expired (plan st) now then
      [Put (loginRequest tok); Delay (1000 * 60 * 1)]
    else generic_delay (plan st) now.
Proof.
  unfold iteration. rewrite Hsession, Hlast. reflexivity.
Qed.

Lemma generic_delay_no_request (p : option Plan.t) :
  count is_login_request (generic_delay p now) = 0%nat.
Proof.
  unfold generic_delay.
  destruct (trialEndAt p) as [t|]; [|reflexivity].
  destruct ((t >? now) && (t - now <? 1000 * 60 * 60)); reflexivity.
Qed.

Lemma generic_delay_soon (p : option Plan.t) (t : Timestamp) :
  trialEndAt p = Some t -> now < t -> t - now < 1000 * 60 * 60 ->
  generic_delay p now = [Delay (now - t + 100)].
Proof.
  intros Ht Hfut Hnear. unfold generic_delay. rewrite Ht.
  replace (t >? now) with true by (symmetry; apply Z.gtb_lt; lia).
  replace (t - now <? 1000 * 60 * 60) with true
    by (symmetry; apply Z.ltb_lt; lia).
  reflexivity.
Qed.

Lemma not_expired_when_future (p : option Plan.t) (t : Timestamp) :
  trialEndAt p = Some t -> now < t -> trial_just_expired p now = false.
Proof.
  intros Ht Hfut. unfold trial_just_expired. rewrite Ht.
  replace (now >=? t) with false
    by (symmetry; rewrite Z.geb_leb; apply Z.leb_gt; lia).
  reflexivity.
Qed.

End KeeperFacts.

(** C1.  In an iteration where the first three branches do not fire and
    the trial boundary [t] is strictly in the future and less than one hour
    away, the loop body performs exactly [delay(now - t + 100)]: the
    operands of the subtraction are swapped, so the delay is below 100 ms
    and is never the [(t - now) + 100] that reaches 100 ms past the
    boundary. *)
Theorem keeper_trial_soon_delay_is_reversed :
  forall (reloadable : bool) (now : Z) (st : Keeper.Snapshot)
         (tok : string) (u : User.t) (last t : Timestamp),
    Keeper.session st = Some (tok, u) ->
    User.lastLoginAt u = Some last ->
    Keeper.reload_branch reloadable now last = false ->
    Keeper.refresh_branch now last = false ->
    Keeper.trialEndAt (Keeper.plan st) = Some t ->
    now < t ->
    t - now < 1000 * 60 * 60 ->
    Keeper.iteration reloadable now st = [Delay (now - t + 100)]
    /\ now - t + 100 < 100
    /\ now - t + 100 <> (t - now) + 100.
Proof.
  intros reloadable now st tok u last t Hs Hl Hreload Hrefresh Ht Hfut Hnear.
  rewrite (iteration_ready now st tok u last Hs Hl), Hreload, Hrefresh.
  rewrite (not_expired_when_future now _ t Ht Hfut).
  rewrite (generic_delay_soon now _ t Ht Hfut Hnear).
  repeat split; lia.
Qed.

(** The instance of the spec's example: the trial ends 30 minutes after
    [now]; the body asks for a delay of -1799900 ms, not 1800100 ms. *)
Lemma keeper_trial_in_30_minutes :
  let now := 100000000 in
  let t := now + 1000 * 60 * 30 in
  let st := logged "app-token" (user_on (plan_with_trial (Some t)) 99000000) in
  Keeper.iteration false now st = [Delay (-1799900)]
  /\ (t - now) + 100 = 1800100.
Proof.
  cbv zeta. split; [|reflexivity].
  exact (proj1 (keeper_trial_soon_delay_is_reversed false 100000000
                  (logged "app-token"
                     (user_on
                        (plan_with_trial (Some (100000000 + 1000 * 60 * 30)))
                        99000000))
                  "app-token"
                  (user_on
                     (plan_with_trial (Some (100000000 + 1000 * 60 * 30)))
                     99000000)
                  99000000 (100000000 + 1000 * 60 * 30)
                  eq_refl eq_refl eq_refl eq_refl eq_refl eq_refl eq_refl)).
Defined.

(** C5.  In an iteration of a non-reloadable environment where more than
    12 hours passed since [lastLoginAt], the body emits one login-request
    with the current [appToken] and goes on to the generic delay; this
    holds for every plan, also one whose trial just expired, so exactly
    one login-request is emitted in the iteration. *)
Theorem keeper_refresh_after_12_hours :
  forall (now : Z) (st : Keeper.Snapshot) (tok : string) (u : User.t)
         (last : Timestamp),
    Keeper.session st = Some (tok, u) ->
    User.lastLoginAt u = Some last ->
    now - last > 1000 * 60 * 60 * 12 ->
    Keeper.iteration false now st
      = Put (loginRequest tok) :: Keeper.generic_delay (Keeper.plan st) now
    /\ count is_login_request (Keeper.iteration false now st) = 1%nat.
Proof.
  intros now st tok u last Hs Hl Hold.
  assert (E : Keeper.iteration false now st
              = Put (loginRequest tok)
                :: Keeper.generic_delay (Keeper.plan st) now).
  { rewrite (iteration_ready now st tok u last Hs Hl).
    unfold Keeper.reload_branch, Keeper.refresh_branch. simpl andb.
    replace (now - last >? 1000 * 60 * 60 * 12) with true
      by (symmetry; apply Z.gtb_lt; lia).
    reflexivity. }
  split; [exact E|].
  rewrite E. unfold count. simpl filter. simpl List.length.
  f_equal. apply generic_delay_no_request.
Qed.

(** A session 13 hours old whose trial ended 2 minutes ago: the refresh
    branch wins and one login-request is emitted. *)
Lemma keeper_refresh_wins_over_expired_trial :
  let now := 100000000 in
  let st := logged "app-token"
              (user_on (plan_with_trial (Some (now - 1000 * 60 * 2)))
                 (now - 1000 * 60 * 60 * 13)) in
  Keeper.trial_just_expired (Keeper.plan st) now = true
  /\ Keeper.iteration false now st
     = [Put (loginRequest "app-token"); Delay (1000 * 60 * 60)]
  /\ count is_login_request (Keeper.iteration false now st) = 1%nat.
Proof.
  cbv zeta. split; [reflexivity|].
  exact (keeper_refresh_after_12_hours 100000000
           (logged "app-token"
              (user_on (plan_with_trial (Some (100000000 - 1000 * 60 * 2)))
                 (100000000 - 1000 * 60 * 60 * 13)))
           "app-token"
           (user_on (plan_with_trial (Some (100000000 - 1000 * 60 * 2)))
              (100000000 - 1000 * 60 * 60 * 13))
           (100000000 - 1000 * 60 * 60 * 13)
           eq_refl eq_refl eq_refl).
Defined.

(** C6.  In an iteration where the reload and refresh branches do not
    fire and the trial boundary [t] passed less than 5 minutes ago, the
    body emits one login-request with the current [appToken], sleeps one
    minute and restarts: nothing of the generic delay is performed. *)
Theorem keeper_trial_just_expired :
  forall (reloadable : bool) (now : Z) (st : Keeper.Snapshot)
         (tok : string) (u : User.t) (last t : Timestamp),
    Keeper.session st = Some (tok, u) ->
    User.lastLoginAt u = Some last ->
    Keeper.reload_branch reloadable now last = false ->
    Keeper.refresh_branch now last = false ->
    Keeper.trialEndAt (Keeper.plan st) = Some t ->
    now >= t ->
    now - t < 1000 * 60 * 5 ->
    Keeper.iteration reloadable now st
      = [Put (loginRequest tok); Delay (1000 * 60 * 1)].
Proof.
  intros reloadable now st tok u last t Hs Hl Hreload Hrefresh Ht Hpast Hwin.
  rewrite (iteration_ready now st tok u last Hs Hl), Hreload, Hrefresh.
  unfold Keeper.trial_just_expired. rewrite Ht.
  replace (now >=? t) with true
    by (symmetry; rewrite Z.geb_leb; apply Z.leb_le; lia).
  replace (now - t <? 1000 * 60 * 5) with true
    by (symmetry; apply Z.ltb_lt; lia).
  reflexivity.
Qed.

(** The instance of the spec's example: the trial ended 2 minutes ago. *)
Lemma keeper_trial_expired_2_minutes_ago :
  let now := 100000000 in
  let st := logged "app-token"
              (user_on (plan_with_trial (Some (now - 1000 * 60 * 2)))
                 (now - 1000 * 60 * 60)) in
  Keeper.iteration true now st
    = [Put (loginRequest "app-token"); Delay 60000].
Proof.
  cbv zeta.
  apply (keeper_trial_just_expired true 100000000
           (logged "app-token"
              (user_on (plan_with_trial (Some (100000000 - 1000 * 60 * 2)))
                 (100000000 - 1000 * 60 * 60)))
           "app-token"
           (user_on (plan_with_trial (Some (100000000 - 1000 * 60 * 2)))
              (100000000 - 1000 * 60 * 60))
           (100000000 - 1000 * 60 * 60) (100000000 - 1000 * 60 * 2));
    try reflexivity; lia.
Defined.

(* ================================================================= *)
(** ** Session exchanger and error normaliser: theorems *)

Section ExchangeFacts.

Import Saga.

Lemma valid_login_inv (data : option (option LoginPayload)) (u : User.t) :
  valid_login data = Some u ->
  exists (l : LoginPayload) (tok : string) (g : GitHubIdentity.t)
         (gu : GitHubUser.t),
    data = Some (Some l)
    /\ login_appToken l = Some tok /\ tok <> ""
    /\ login_user l = Some u
    /\ User.github u = Some g
    /\ GitHubIdentity.user g = Some gu
    /\ truthy_prim (GitHubUser.id gu) = true.
Proof.
  unfold valid_login.
  destruct data as [[l|]|]; try discriminate.
  destruct (login_appToken l) as [tok|] eqn:Etok; try discriminate.
  destruct (login_user l) as [u'|] eqn:Eu; try discriminate.
  destruct (String.eqb tok "") eqn:Eempty; simpl; try discriminate.
  destruct (User.github u') as [g|] eqn:Eg; try discriminate.
  destruct (GitHubIdentity.user g) as [gu|] eqn:Egu; try discriminate.
  destruct (truthy_prim (GitHubUser.id gu)) eqn:Eid; try discriminate.
  intros [= <-]. exists l, tok, g, gu.
  repeat split; auto.
  intros ->. discriminate.
Qed.

(** Whatever is thrown in the [try] block ends in a login-failure. *)
Lemma onLoginRequest_caught (local : bool) (appToken : string) (w : World)
  (pre : list effect) (e : value) :
  login_attempt local appToken w = (pre, inl e) ->
  onLoginRequest local appToken w
    = ((pre ++ [ConsoleError [VPrim (PStr "Login failed"); e];
                BugsnagNotify (to_Error e "Unknown error") None;
                Put (loginFailure (normalize e))])%list, inr tt).
Proof.
  intros H. unfold onLoginRequest. rewrite H. reflexivity.
Qed.

(** [onLoginRequest] never throws past its boundary. *)
Lemma onLoginRequest_returns (local : bool) (appToken : string) (w : World) :
  snd (onLoginRequest local appToken w) = inr tt.
Proof.
  unfold onLoginRequest, try_catch.
  destruct (login_attempt local appToken w) as [l [e|[]]]; reflexivity.
Qed.

(** A backend answer without errors that misses [appToken] or the user id
    is a protocol violation: login-failure with 'Invalid response'. *)
Lemma exchange_backend_invalid_response (appToken : string) (w : World)
  (status : Z) (body : LoginBody) :
  post w = AxiosReturns status body ->
  has_errors (body_errors body) = false ->
  valid_login (body_data body) = None ->
  onLoginRequest false appToken w
    = ([ConsoleError [VPrim (PStr "Login failed");
                      new_Error "Invalid response"];
        BugsnagNotify (new_Error "Invalid response") None;
        Put (loginFailure
               {| AuthError.name := "Error";
                  AuthError.message := "Invalid response";
                  AuthError.status := undefined;
                  AuthError.response := undefined |})], inr tt).
Proof.
  intros Hp He Hv.
  rewrite (onLoginRequest_caught false appToken w []
             (new_Error "Invalid response")).
  - reflexivity.
  - unfold login_attempt. rewrite Hp, He, Hv. reflexivity.
Qed.

(** A primitive has no property that is itself an object or an array. *)
Lemma prop_of_object (x : value) (k : string) :
  truthy (prop x k) && typeof_object (prop x k) = true ->
  truthy x && typeof_object x = true.
Proof.
  destruct x as [p|l|props|n m props]; try reflexivity.
  destruct p; simpl; intros H; discriminate.
Qed.

(** [isGraphQLErrorResponse] recognises exactly the values whose
    [response.data.errors] is an array and [response.status] a number. *)
Lemma isGraphQLErrorResponse_shape (v : value) :
  isGraphQLErrorResponse v = array_shape v.
Proof.
  unfold isGraphQLErrorResponse, array_shape, graphql_shape.
  set (r := prop v "response"). set (d := prop r "data").
  destruct (prop d "errors") as [p|items|props|n m props] eqn:Ee.
  - destruct (negb (truthy v) || negb (typeof_object v)); [reflexivity|].
    simpl isArray. rewrite andb_false_r. reflexivity.
  - assert (Hd : truthy d && typeof_object d = true)
      by (apply (prop_of_object d "errors"); rewrite Ee; reflexivity).
    assert (Hr : truthy r && typeof_object r = true)
      by (apply (prop_of_object r "data"); exact Hd).
    assert (Hv : truthy v && typeof_object v = true)
      by (apply (prop_of_object v "response"); exact Hr).
    apply andb_true_iff in Hd, Hr, Hv.
    destruct Hd as [-> ->], Hr as [-> ->], Hv as [-> ->].
    reflexivity.
  - destruct (negb (truthy v) || negb (typeof_object v)); [reflexivity|].
    simpl isArray. rewrite andb_false_r. reflexivity.
  - destruct (negb (truthy v) || negb (typeof_object v)); [reflexivity|].
    simpl isArray. rewrite andb_false_r. reflexivity.
Qed.

End ExchangeFacts.

Lemma valid_login_intro (l : Saga.LoginPayload) (tok : string) (u : User.t)
  (g : GitHubIdentity.t) (gu : GitHubUser.t) :
  Saga.login_appToken l = Some tok -> tok <> "" ->
  Saga.login_user l = Some u ->
  User.github u = Some g ->
  GitHubIdentity.user g = Some gu ->
  truthy_prim (GitHubUser.id gu) = true ->
  Saga.valid_login (Some (Some l)) = Some u.
Proof.
  intros Htok Hne Hu Hg Hgu Hid. unfold Saga.valid_login.
  rewrite Htok, Hu. apply String.eqb_neq in Hne. rewrite Hne. simpl.
  rewrite Hg, Hgu, Hid. reflexivity.
Qed.

(** C2.  In backend-mediated mode, for every answer without errors whose
    [data.login] holds a non-empty [appToken] and a user with a GitHub id,
    the saga emits exactly one login-success carrying the user record of
    the answer and the [appToken] of the login request: the [appToken] of
    the answer is checked for presence and then dropped.  An answer
    without errors that fails the check ends in a login-failure with the
    message 'Invalid response'. *)
Theorem exchange_backend_success_carries_request_token :
  (forall (appToken : string) (w : Saga.World) (status : Z)
          (errors : option (list value)) (l : Saga.LoginPayload)
          (tok : string) (u : User.t) (g : GitHubIdentity.t)
          (gu : GitHubUser.t),
      Saga.post w
        = Saga.AxiosReturns status
            {| Saga.body_data := Some (Some l);
               Saga.body_errors := errors |} ->
      Saga.has_errors errors = false ->
      Saga.login_appToken l = Some tok -> tok <> "" ->
      Saga.login_user l = Some u ->
      User.github u = Some g ->
      GitHubIdentity.user g = Some gu ->
      truthy_prim (GitHubUser.id gu) = true ->
      Saga.onLoginRequest false appToken w
        = ([Put (loginSuccess appToken u)], inr tt))
  /\ (forall (appToken : string) (w : Saga.World) (status : Z)
             (body : Saga.LoginBody),
        Saga.post w = Saga.AxiosReturns status body ->
        Saga.has_errors (Saga.body_errors body) = false ->
        Saga.valid_login (Saga.body_data body) = None ->
        Saga.onLoginRequest false appToken w
          = ([ConsoleError [VPrim (PStr "Login failed");
                            new_Error "Invalid response"];
              BugsnagNotify (new_Error "Invalid response") None;
              Put (loginFailure
                     {| AuthError.name := "Error";
                        AuthError.message := "Invalid response";
                        AuthError.status := undefined;
                        AuthError.response := undefined |})], inr tt)).
Proof.
  split.
  - intros appToken w status errors l tok u g gu Hp He Htok Hne Hu Hg Hgu Hid.
    unfold Saga.onLoginRequest, Saga.login_attempt.
    rewrite Hp. simpl Saga.body_errors. rewrite He.
    simpl Saga.body_data.
    rewrite (valid_login_intro l tok u g gu Htok Hne Hu Hg Hgu Hid).
    reflexivity.
  - apply exchange_backend_invalid_response.
Qed.

(** The backend answers a request made with "stale-token" by a session
    whose [appToken] is "fresh-token": the login-success carries
    "stale-token". *)
Lemma exchange_backend_drops_fresh_token :
  Saga.onLoginRequest false "stale-token" (backend_world "fresh-token")
    = ([Put (loginSuccess "stale-token" (user_on (plan_with_trial None) 0))],
       inr tt)
  /\ "stale-token" <> "fresh-token".
Proof.
  split; [|discriminate].
  refine (proj1 exchange_backend_success_carries_request_token
            "stale-token" (backend_world "fresh-token") 200 None
            {| Saga.login_appToken := Some "fresh-token";
               Saga.login_user := Some (user_on (plan_with_trial None) 0) |}
            "fresh-token" (user_on (plan_with_trial None) 0)
            {| GitHubIdentity.app := None;
               GitHubIdentity.oauth := None;
               GitHubIdentity.personal := None;
               GitHubIdentity.user := Some octocat |}
            octocat eq_refl eq_refl eq_refl _ eq_refl eq_refl eq_refl
            eq_refl).
  discriminate.
Defined.

(** C3, as amended.  For every backend answer whose [errors] array is
    non-empty, however the failure is raised, the saga emits a
    login-failure whose [status] is the HTTP status of the answer and whose
    [response] is an object whose [errors] is the error list: the object
    [{errors: list}] when the saga itself throws for an answer that axios
    returned, and the body of the answer when axios throws for it.  And
    for every thrown value that has not the shape [response.data.errors]
    an array (empty or not) with a numeric [response.status], the
    normalised error has [status] and [response] unset. *)
Theorem graphql_errors_are_normalized :
  (forall (appToken : string) (w : Saga.World) (status : Z)
          (body : Saga.LoginBody) (e : value) (errs : list value),
      Saga.post w = Saga.AxiosReturns status body ->
      Saga.body_errors body = Some (e :: errs) ->
      let thrown :=
        Saga.createGraphQLError "GraphQL Error"
          (Saga.mkGraphQLResponse body status (Some (e :: errs))) in
      Saga.onLoginRequest false appToken w
        = ([ConsoleError [VPrim (PStr "Login failed"); thrown];
            BugsnagNotify thrown None;
            Put (loginFailure
                   {| AuthError.name := "Error";
                      AuthError.message := "GraphQL Error";
                      AuthError.status := VPrim (PNum status);
                      AuthError.response :=
                        VObj [("errors", VArr (e :: errs))] |})], inr tt))
  /\ (forall (appToken : string) (w : Saga.World) (error : value)
             (status : Z) (e : value) (errs : list value),
        Saga.post w = Saga.AxiosThrows error ->
        prop (prop error "response") "status" = VPrim (PNum status) ->
        prop (prop (prop error "response") "data") "errors"
          = VArr (e :: errs) ->
        Saga.onLoginRequest false appToken w
          = ([ConsoleError [VPrim (PStr "Login failed"); error];
              BugsnagNotify (to_Error error "Unknown error") None;
              Put (loginFailure (Saga.normalize error))], inr tt)
        /\ AuthError.status (Saga.normalize error) = VPrim (PNum status)
        /\ AuthError.response (Saga.normalize error)
           = prop (prop error "response") "data"
        /\ prop (AuthError.response (Saga.normalize error)) "errors"
           = VArr (e :: errs))
  /\ (forall error : value,
        array_shape error = false ->
        AuthError.status (Saga.normalize error) = undefined
        /\ AuthError.response (Saga.normalize error) = undefined).
Proof.
  split; [|split].
  - intros appToken w status body e errs Hp He thrown.
    rewrite (onLoginRequest_caught false appToken w [] thrown).
    + reflexivity.
    + unfold Saga.login_attempt. rewrite Hp, He. reflexivity.
  - intros appToken w error status e errs Hp Hstatus Herrors.
    assert (Hshape : Saga.isGraphQLErrorResponse error = true).
    { rewrite isGraphQLErrorResponse_shape.
      unfold array_shape, graphql_shape. rewrite Herrors, Hstatus.
      reflexivity. }
    split.
    + rewrite (onLoginRequest_caught false appToken w [] error).
      * reflexivity.
      * unfold Saga.login_attempt. rewrite Hp. reflexivity.
    + unfold Saga.normalize. simpl. rewrite Hshape, Hstatus, Herrors.
      repeat split; reflexivity.
  - intros error Hshape. unfold Saga.normalize.
    rewrite isGraphQLErrorResponse_shape, Hshape. split; reflexivity.
Qed.

(** The three cases at work: an answer returned with HTTP 200 and one
    error; the same error list thrown by axios with HTTP 401; a network
    error. *)
Lemma graphql_errors_are_normalized_witness :
  In (Put (loginFailure
             {| AuthError.name := "Error";
                AuthError.message := "GraphQL Error";
                AuthError.status := VPrim (PNum 200);
                AuthError.response :=
                  VObj [("errors", VArr [unauthenticated_entry])] |}))
     (effects (Saga.onLoginRequest false "app-token"
                 (graphql_error_world 200 [unauthenticated_entry])))
  /\ (Saga.onLoginRequest false "app-token" (throwing_world http_401_error)
      = ([ConsoleError [VPrim (PStr "Login failed"); http_401_error];
          BugsnagNotify http_401_error None;
          Put (loginFailure (Saga.normalize http_401_error))], inr tt)
      /\ AuthError.status (Saga.normalize http_401_error)
         = VPrim (PNum 401)
      /\ AuthError.response (Saga.normalize http_401_error)
         = unauthenticated_body
      /\ prop (AuthError.response (Saga.normalize http_401_error)) "errors"
         = VArr [unauthenticated_entry])
  /\ AuthError.status (Saga.normalize (new_Error "Network Error")) = undefined
  /\ AuthError.response (Saga.normalize (new_Error "Network Error"))
     = undefined.
Proof.
  split; [|split].
  - rewrite (proj1 graphql_errors_are_normalized "app-token"
               (graphql_error_world 200 [unauthenticated_entry]) 200
               {| Saga.body_data := Some None;
                  Saga.body_errors := Some [unauthenticated_entry] |}
               unauthenticated_entry [] eq_refl eq_refl).
    simpl. right. right. left. reflexivity.
  - exact (proj1 (proj2 graphql_errors_are_normalized) "app-token"
             (throwing_world http_401_error) http_401_error 401
             unauthenticated_entry [] eq_refl eq_refl eq_refl).
  - exact (proj2 (proj2 graphql_errors_are_normalized)
             (new_Error "Network Error") eq_refl).
Defined.

(** C3, counterexample.  The [response] of the login-failure is not the
    error list: for an answer returned with HTTP 200 it is the object
    [{errors: list}], and for the same list thrown by axios with HTTP 401
    it is the whole body, [data] included.  And the error thrown for an
    HTTP 500 answer whose body holds an empty [errors] array has not the
    shape the claim describes (the array is empty), yet its normalised
    error has [status] and [response] set. *)
Lemma graphql_error_claim_fails :
  (In (Put (loginFailure
              {| AuthError.name := "Error";
                 AuthError.message := "GraphQL Error";
                 AuthError.status := VPrim (PNum 200);
                 AuthError.response :=
                   VObj [("errors", VArr [unauthenticated_entry])] |}))
      (effects (Saga.onLoginRequest false "app-token"
                  (graphql_error_world 200 [unauthenticated_entry])))
   /\ VObj [("errors", VArr [unauthenticated_entry])]
      <> VArr [unauthenticated_entry])
  /\ (In (Put (loginFailure
                 {| AuthError.name := "AxiosError";
                    AuthError.message := "Request failed with status code 401";
                    AuthError.status := VPrim (PNum 401);
                    AuthError.response := unauthenticated_body |}))
         (effects (Saga.onLoginRequest false "app-token"
                     (throwing_world http_401_error)))
      /\ unauthenticated_body <> VArr [unauthenticated_entry]
      /\ unauthenticated_body
         <> VObj [("errors", VArr [unauthenticated_entry])])
  /\ (spec_shape http_500_error = false
      /\ In (Put (loginFailure
                    {| AuthError.name := "Error";
                       AuthError.message :=
                         "Request failed with status code 500";
                       AuthError.status := VPrim (PNum 500);
                       AuthError.response := VObj [("errors", VArr [])] |}))
            (effects (Saga.onLoginRequest false "app-token"
                        (throwing_world http_500_error)))
      /\ ~ (AuthError.status (Saga.normalize http_500_error) = undefined
            /\ AuthError.response (Saga.normalize http_500_error)
               = undefined)).
Proof.
  split; [|split].
  - split; [|discriminate].
    simpl. right. right. left. reflexivity.
  - split; [|split]; try discriminate.
    simpl. right. right. left. reflexivity.
  - split; [reflexivity|]. split.
    + simpl. right. right. left. reflexivity.
    + intros [H _]. discriminate H.
Qed.

(* ================================================================= *)
(** ** Event reactor: theorems *)

(** When no entry is tagged, the scan of the entries never answers
    [true]: it answers [false] or stops on a [TypeError]. *)
Lemma some_unauthenticated_untagged (errors : list value) :
  (forall e ext, In e errors -> get e "extensions" = Some ext ->
                 prop ext "code" <> VPrim (PStr "UNAUTHENTICATED")) ->
  Saga.some_unauthenticated errors <> Some true.
Proof.
  induction errors as [|e rest IH]; intros Hno; simpl.
  - discriminate.
  - destruct (get e "extensions") as [ext|] eqn:Eext; [|discriminate].
    destruct (truthy ext && is_str (prop ext "code") "UNAUTHENTICATED")
      eqn:Etag.
    + exfalso. apply andb_true_iff in Etag. destruct Etag as [_ Hcode].
      apply (Hno e ext); [left; reflexivity | exact Eext |].
      unfold is_str in Hcode.
      destruct (prop ext "code") as [[| | | |t]| | |]; try discriminate.
      apply String.eqb_eq in Hcode. subst t. reflexivity.
    + apply IH. intros e' ext' Hin. apply Hno. right. exact Hin.
Qed.

(** C4.  A login-failure whose error has [status] 401 makes the reactor
    emit exactly one logout; a login-failure whose error has [status] 403
    and whose body carries neither a nested status 401 nor an error tagged
    UNAUTHENTICATED makes it emit nothing. *)
Theorem login_failure_logout :
  (forall err : AuthError.t,
      AuthError.status err = VPrim (PNum 401) ->
      Saga.onLoginFailure (Some err) = ([Put logout], inr tt))
  /\ (forall err : AuthError.t,
        AuthError.status err = VPrim (PNum 403) ->
        nested_401 err = false ->
        ~ tagged_unauthenticated err ->
        effects (Saga.onLoginFailure (Some err)) = []
        /\ count is_logout (effects (Saga.onLoginFailure (Some err)))
           = 0%nat).
Proof.
  split.
  - intros err Hs. unfold Saga.onLoginFailure, Saga.must_logout.
    rewrite Hs. reflexivity.
  - intros err Hs Hnested Htag.
    assert (E : effects (Saga.onLoginFailure (Some err)) = []).
    { unfold Saga.onLoginFailure, Saga.must_logout.
      rewrite Hs. simpl is_num. cbv iota.
      unfold nested_401 in Hnested. rewrite Hnested.
      destruct (truthy (AuthError.response err)); [|reflexivity].
      destruct (truthy (prop (AuthError.response err) "data"));
        [|reflexivity].
      destruct (prop (prop (AuthError.response err) "data") "errors")
        as [p|errors|props|n m props] eqn:Ee; try reflexivity.
      assert (Hno : Saga.some_unauthenticated errors <> Some true).
      { apply some_unauthenticated_untagged. intros e ext Hin Hext Hcode.
        apply Htag. exists errors, e, ext. auto. }
      destruct (Saga.some_unauthenticated errors) as [[|]|];
        try reflexivity.
      exfalso. apply Hno. reflexivity. }
    split; [exact E | rewrite E; reflexivity].
Qed.

Lemma login_failure_logout_witness :
  Saga.onLoginFailure (Some unauthorized_error) = ([Put logout], inr tt)
  /\ effects (Saga.onLoginFailure (Some forbidden_error)) = [].
Proof.
  split.
  - exact (proj1 login_failure_logout unauthorized_error eq_refl).
  - refine (proj1 (proj2 login_failure_logout forbidden_error
                     eq_refl eq_refl _)).
    intros (errors & e & ext & Herr & _). simpl in Herr. discriminate Herr.
Defined.

(* ================================================================= *)
(** ** Local-only sessions: theorems *)



(* ================================================================= *)
(** ** Credential validator: theorems *)

Section ValidatorFacts.

Import LoginHelpers.

Lemma split_cons (sep : ascii) (s : string) :
  exists h t, split sep s = h :: t.
Proof.
  induction s as [|c r IH]; simpl.
  - eexists; eexists; reflexivity.
  - destruct (Ascii.eqb c sep); [eexists; eexists; reflexivity|].
    destruct IH as (h & t & ->). eexists; eexists; reflexivity.
Qed.

(** Removing the white space before splitting, as the code does, or in
    each entry after splitting, as the specification says, is the same:
    the separator is not white space. *)
Lemma split_remove_spaces (s : string) :
  split comma (remove_spaces s) = map remove_spaces (split comma s).
Proof.
  induction s as [|c r IH]; [reflexivity|].
  simpl split at 2.
  destruct (Ascii.eqb c comma) eqn:Ec.
  - apply Ascii.eqb_eq in Ec. subst c. simpl. rewrite IH. reflexivity.
  - destruct (split_cons comma r) as (h & t & Hr).
    rewrite Hr in IH |- *. simpl map. simpl remove_spaces.
    destruct (is_space c).
    + exact IH.
    + simpl. rewrite Ec, IH. reflexivity.
Qed.

Lemma parse_scopes_refines (header : prim) :
  parse_scopes header = parse_scopes_spec header.
Proof.
  unfold parse_scopes, parse_scopes_spec.
  rewrite split_remove_spaces. reflexivity.
Qed.

Lemma missing_repo_iff (scope : list string) :
  missing_repo scope = true <-> scope <> [] /\ includes scope "repo" = false.
Proof.
  unfold missing_repo. destruct scope as [|x xs].
  - split; [discriminate | intros [H _]; contradiction].
  - rewrite negb_true_iff. split.
    + intros H. split; [discriminate | exact H].
    + intros [_ H]. exact H.
Qed.

Lemma handleAuthError_no_request (e : value) (d : option string) :
  filter is_login_request (handleAuthError e d) = [].
Proof.
  unfold handleAuthError.
  destruct (truthy e), (suppressed (to_Error e (string_or_unknown e)));
    reflexivity.
Qed.

Lemma rejected_with_no_request (e : value) :
  count is_login_request (rejected_with e) = 0%nat.
Proof.
  unfold count, rejected_with.
  rewrite !filter_app, handleAuthError_no_request. reflexivity.
Qed.

Variables (c : Context) (token : string) (data : option RestUser.t)
          (hdr : prim).
Hypothesis Hprompt : prompt c = Some token.
Hypothesis Htoken : nonempty token = true.
Hypothesis Hget : get_user c = GetReturns data hdr.

(** A failure of the checks surfaces through [handleAuthError]. *)
Lemma pat_rejected (e : value) :
  validate c token data hdr = ([], inl e) ->
  loginWithGitHubPersonalAccessToken c = (rejected_with e, inr tt).
Proof.
  intros Hv.
  unfold loginWithGitHubPersonalAccessToken, pat_attempt.
  rewrite Hprompt, Htoken, Hget. simpl negb. cbv iota.
  unfold bind, emit, try_catch. rewrite Hv.
  unfold rejected_with. simpl. reflexivity.
Qed.

Lemma validate_rejects_missing_repo :
  missing_repo (parse_scopes hdr) = true ->
  exists e, validate c token data hdr = ([], inl e).
Proof.
  intros Hm. unfold validate.
  destruct (identity_of data) as [d|]; [|eexists; reflexivity].
  destruct (different_user d (loggedGitHubUserId c));
    [eexists; reflexivity|].
  rewrite Hm. eexists; reflexivity.
Qed.

End ValidatorFacts.

(** C7.  The scopes the code parses are those of the specification's
    parsing.  When they are non-empty and lack "repo", the token is
    rejected: no login-request is dispatched, and once the identity and
    account checks have passed the failure is the error about private
    repositories, which says that the token stays on the device, shown in
    a dialog.  When they are empty, the scope check lets the token through
    to adoption. *)
Theorem pat_without_repo_scope_is_rejected :
  forall (c : LoginHelpers.Context) (token : string)
         (data : option RestUser.t) (hdr : prim),
    LoginHelpers.prompt c = Some token ->
    LoginHelpers.nonempty token = true ->
    LoginHelpers.get_user c = LoginHelpers.GetReturns data hdr ->
    LoginHelpers.parse_scopes hdr = parse_scopes_spec hdr
    /\ (parse_scopes_spec hdr <> [] ->
        LoginHelpers.includes (parse_scopes_spec hdr) "repo" = false ->
        count is_login_request
          (effects (LoginHelpers.loginWithGitHubPersonalAccessToken c))
          = 0%nat
        /\ forall d : RestUser.t,
             LoginHelpers.identity_of data = Some d ->
             LoginHelpers.different_user d (LoginHelpers.loggedGitHubUserId c)
               = false ->
             LoginHelpers.loginWithGitHubPersonalAccessToken c
               = (rejected_with
                    (new_Error LoginHelpers.missing_repo_message), inr tt)
             /\ In (DialogShow "Login failed"
                      LoginHelpers.missing_repo_message)
                   (effects
                      (LoginHelpers.loginWithGitHubPersonalAccessToken c)))
    /\ (parse_scopes_spec hdr = [] ->
        forall d : RestUser.t,
          LoginHelpers.identity_of data = Some d ->
          LoginHelpers.different_user d (LoginHelpers.loggedGitHubUserId c)
            = false ->
          LoginHelpers.validate c token data hdr
            = LoginHelpers.adopt c token d [])
    /\ contains "private repositories" LoginHelpers.missing_repo_message
       = true
    /\ contains "never be sent to DevHub's server"
         LoginHelpers.missing_repo_message = true.
Proof.
  intros c token data hdr Hprompt Htoken Hget.
  split; [apply parse_scopes_refines|].
  rewrite <- parse_scopes_refines.
  split; [|split; [|split; reflexivity]].
  - intros Hne Hrepo.
    assert (Hm : LoginHelpers.missing_repo (LoginHelpers.parse_scopes hdr)
                 = true) by (apply missing_repo_iff; auto).
    split.
    + destruct (validate_rejects_missing_repo c token data hdr Hm)
        as [e He].
      rewrite (pat_rejected c token data hdr Hprompt Htoken Hget e He).
      apply rejected_with_no_request.
    + intros d Hid Hsame.
      assert (Hv : LoginHelpers.validate c token data hdr
                   = ([], inl (new_Error LoginHelpers.missing_repo_message))).
      { unfold LoginHelpers.validate. rewrite Hid, Hsame, Hm. reflexivity. }
      rewrite (pat_rejected c token data hdr Hprompt Htoken Hget _ Hv).
      split; [reflexivity|].
      simpl. do 6 right. left. reflexivity.
  - intros Hempty d Hid Hsame.
    unfold LoginHelpers.validate. rewrite Hid, Hsame, Hempty. reflexivity.
Qed.

Lemma pat_without_repo_scope_is_rejected_witness :
  let c := paste_token PUndef PUndef "gist, read:user" in
  parse_scopes_spec (PStr "gist, read:user") = ["gist"; "read:user"]
  /\ LoginHelpers.loginWithGitHubPersonalAccessToken c
     = (rejected_with (new_Error LoginHelpers.missing_repo_message), inr tt)
  /\ LoginHelpers.validate (paste_token PUndef PUndef "") "ghp_token"
       (Some octocat_rest) (PStr "")
     = LoginHelpers.adopt (paste_token PUndef PUndef "") "ghp_token"
         octocat_rest [].
Proof.
  cbv zeta. split; [reflexivity|]. split.
  - assert (H := pat_without_repo_scope_is_rejected
                   (paste_token PUndef PUndef "gist, read:user")
                   "ghp_token" (Some octocat_rest)
                   (PStr "gist, read:user") eq_refl eq_refl eq_refl).
    destruct H as (_ & Hreject & _).
    assert (Hne : parse_scopes_spec (PStr "gist, read:user") <> [])
      by (vm_compute; discriminate).
    destruct (Hreject Hne eq_refl) as [_ Hd].
    exact (proj1 (Hd octocat_rest eq_refl eq_refl)).
  - assert (H := pat_without_repo_scope_is_rejected
                   (paste_token PUndef PUndef "")
                   "ghp_token" (Some octocat_rest)
                   (PStr "") eq_refl eq_refl eq_refl).
    destruct H as (_ & _ & Hempty & _).
    exact (Hempty eq_refl octocat_rest eq_refl eq_refl).
Defined.

Lemma Z_to_string_inj (n m : Z) : Z_to_string n = Z_to_string m -> n = m.
Proof.
  unfold Z_to_string. intros H.
  apply DecimalZ.to_int_inj.
  assert (E : Some (Z.to_int n) = Some (Z.to_int m)).
  { rewrite <- (NilEmpty.isi (Z.to_int n)), <- (NilEmpty.isi (Z.to_int m)).
    rewrite H. reflexivity. }
  injection E as E. exact E.
Qed.

(** C8.  While a GitHub account is logged in, a token whose identity has
    another id is rejected with a message that names the two logins when
    they differ and the two ids otherwise; the message is shown in a
    dialog and no login-request is dispatched.  When the ids are equal the
    account check passes and validation goes on with the scope check.  Ids
    are compared by their renderings, which for two numbers differ exactly
    when the numbers do. *)
Theorem pat_of_other_account_is_rejected :
  forall (c : LoginHelpers.Context) (token : string)
         (data : option RestUser.t) (hdr : prim) (d : RestUser.t),
    LoginHelpers.prompt c = Some token ->
    LoginHelpers.nonempty token = true ->
    LoginHelpers.get_user c = LoginHelpers.GetReturns data hdr ->
    LoginHelpers.identity_of data = Some d ->
    truthy_prim (LoginHelpers.loggedGitHubUserId c) = true ->
    let id := RestUser.id d in
    let login := RestUser.login d in
    let loggedId := LoginHelpers.loggedGitHubUserId c in
    let loggedName := LoginHelpers.loggedGitHubUsername c in
    (tmpl id <> tmpl loggedId ->
       let details :=
         if prim_eqb login loggedName
         then String.append " (ID "
                (String.append (tmpl id)
                   (String.append " instead of "
                      (String.append (tmpl loggedId) ")")))
         else String.append " ("
                (String.append (tmpl login)
                   (String.append " instead of "
                      (String.append (tmpl loggedName) ")"))) in
       let message :=
         String.append
           "This Personal Access Token seems to be from a different user"
           (String.append details ".") in
       LoginHelpers.loginWithGitHubPersonalAccessToken c
         = (rejected_with (new_Error message), inr tt)
       /\ In (DialogShow "Login failed" message)
             (effects (LoginHelpers.loginWithGitHubPersonalAccessToken c))
       /\ count is_login_request
            (effects (LoginHelpers.loginWithGitHubPersonalAccessToken c))
          = 0%nat)
    /\ (tmpl id = tmpl loggedId ->
          LoginHelpers.validate c token data hdr
            = if LoginHelpers.missing_repo (LoginHelpers.parse_scopes hdr)
              then throw (new_Error LoginHelpers.missing_repo_message)
              else LoginHelpers.adopt c token d
                     (LoginHelpers.parse_scopes hdr))
    /\ (forall n m : Z,
          id = PNum n -> loggedId = PNum m ->
          (tmpl id = tmpl loggedId <-> n = m)).
Proof.
  intros c token data hdr d Hprompt Htoken Hget Hid Hlogged.
  cbv zeta. split; [|split].
  - intros Hdiff.
    assert (Hd : LoginHelpers.different_user d
                   (LoginHelpers.loggedGitHubUserId c) = true).
    { unfold LoginHelpers.different_user. rewrite Hlogged. simpl.
      apply negb_true_iff. apply String.eqb_neq. exact Hdiff. }
    match goal with
    | |- ?L = (rejected_with ?e, _) /\ _ =>
        assert (Hv : LoginHelpers.validate c token data hdr = ([], inl e))
    end.
    { unfold LoginHelpers.validate. rewrite Hid, Hd.
      unfold LoginHelpers.different_user_message, throw.
      destruct (prim_eqb (RestUser.login d)
                  (LoginHelpers.loggedGitHubUsername c)); reflexivity. }
    rewrite (pat_rejected c token data hdr Hprompt Htoken Hget _ Hv).
    split; [reflexivity|]. split; [|apply rejected_with_no_request].
    unfold rejected_with, LoginHelpers.handleAuthError, effects.
    simpl. do 6 right. left. reflexivity.
  - intros Hsame.
    unfold LoginHelpers.validate, LoginHelpers.different_user.
    rewrite Hid, Hsame, String.eqb_refl, andb_false_r. reflexivity.
  - intros n m -> ->. simpl. split.
    + apply Z_to_string_inj.
    + intros ->. reflexivity.
Qed.

Lemma pat_of_other_account_is_rejected_witness :
  LoginHelpers.loginWithGitHubPersonalAccessToken
    (paste_token (PNum 1) (PStr "alice") "repo")
    = (rejected_with
         (new_Error
            "This Personal Access Token seems to be from a different user (octocat instead of alice)."),
       inr tt)
  /\ LoginHelpers.loginWithGitHubPersonalAccessToken
       (paste_token (PNum 1) (PStr "octocat") "repo")
     = (rejected_with
          (new_Error
             "This Personal Access Token seems to be from a different user (ID 583231 instead of 1)."),
        inr tt).
Proof.
  split.
  - assert (H := pat_of_other_account_is_rejected
                   (paste_token (PNum 1) (PStr "alice") "repo")
                   "ghp_token" (Some octocat_rest) (PStr "repo")
                   octocat_rest eq_refl eq_refl eq_refl eq_refl eq_refl).
    cbv zeta in H. destruct H as [H _].
    assert (Hne : tmpl (RestUser.id octocat_rest) <> tmpl (PNum 1))
      by (vm_compute; discriminate).
    exact (proj1 (H Hne)).
  - assert (H := pat_of_other_account_is_rejected
                   (paste_token (PNum 1) (PStr "octocat") "repo")
                   "ghp_token" (Some octocat_rest) (PStr "repo")
                   octocat_rest eq_refl eq_refl eq_refl eq_refl eq_refl).
    cbv zeta in H. destruct H as [H _].
    assert (Hne : tmpl (RestUser.id octocat_rest) <> tmpl (PNum 1))
      by (vm_compute; discriminate).
    exact (proj1 (H Hne)).
Defined.

(** C9, as amended.  Every failure handed to [handleAuthError] is
    reported once to the crash reporter, those whose message is
    'Canceled' or 'Timeout' included; these two are the only ones for
    which no dialog is shown, and every other failure shows one dialog
    with the title 'Login failed' and the message of the error. *)
Theorem handleAuthError_reports_then_shows :
  forall (error : value) (description : option string),
    let err := to_Error error (LoginHelpers.string_or_unknown error) in
    let message := error_message err in
    filter is_notify (LoginHelpers.handleAuthError error description)
      = [BugsnagNotify err
           (Some match description with
                 | Some d => d
                 | None => "Authentication failed"
                 end)]
    /\ filter is_dialog (LoginHelpers.handleAuthError error description)
       = if String.eqb message "Canceled" || String.eqb message "Timeout"
         then []
         else [DialogShow "Login failed" message].
Proof.
  intros error description. cbv zeta.
  unfold LoginHelpers.handleAuthError, LoginHelpers.suppressed.
  rewrite !filter_app.
  destruct (truthy error);
    destruct (String.eqb
                (error_message
                   (to_Error error (LoginHelpers.string_or_unknown error)))
                "Canceled"
              || String.eqb
                   (error_message
                      (to_Error error (LoginHelpers.string_or_unknown error)))
                   "Timeout");
    split; reflexivity.
Qed.

(** C9, counterexample.  The user cancels the prompt: the helper shows no
    dialog, but it does report the 'Canceled' error to the crash
    reporter. *)
Lemma canceled_login_is_reported :
  let description := Some "Personal access token login failed" in
  let error := new_Error "Canceled" in
  effects (LoginHelpers.loginWithGitHubPersonalAccessToken cancel_prompt)
    = [TrackEvent "engagement" "login";
       ConsoleError [VPrim (PStr "Personal access token login failed")];
       ConsoleError [error];
       BugsnagNotify error description;
       SetIsExecutingOAuth false;
       SetPATLoadingState None]
  /\ count is_dialog (LoginHelpers.handleAuthError error description) = 0%nat
  /\ count is_notify (LoginHelpers.handleAuthError error description) = 1%nat
  /\ ~ count is_notify (LoginHelpers.handleAuthError error description)
       = 0%nat.
Proof.
  cbv zeta. repeat split; try reflexivity.
  discriminate.
Qed.

(* ================================================================= *)
(** ** Session keeper: further properties *)

Lemma generic_delay_bounded (p : option Plan.t) (now : Z) :
  exists ms, Keeper.generic_delay p now = [Delay ms] /\ ms <= 1000 * 60 * 60.
Proof.
  unfold Keeper.generic_delay.
  destruct (Keeper.trialEndAt p) as [t|].
  - destruct ((t >? now) && (t - now <? 1000 * 60 * 60)) eqn:E.
    + apply andb_true_iff in E. destruct E as [E _].
      apply Z.gtb_lt in E. eexists. split; [reflexivity | lia].
    + eexists. split; [reflexivity | lia].
  - eexists. split; [reflexivity | lia].
Qed.

Ltac keeper_item :=
  first
    [ left; reflexivity
    | right; left; reflexivity
    | right; right; left; eexists; split; [eassumption | reflexivity]
    | right; right; right; eexists; split; [reflexivity | lia] ].

(** X1.  Whatever the state and the clock, one pass of the keeper's loop
    emits at most one login-request; every event it puts is a
    login-request carrying the [appToken] read from the state; every sleep
    it asks for is at most one hour; and it does nothing else than wait
    for a login, reload, put and sleep. *)
Theorem keeper_iteration_effects :
  forall (reloadable : bool) (now : Z) (st : Keeper.Snapshot),
    (count is_login_request (Keeper.iteration reloadable now st) <= 1)%nat
    /\ Forall (fun e =>
                 e = Take "LOGIN_SUCCESS"
                 \/ e = Reload
                 \/ (exists tok, Keeper.appToken st = Some tok
                                 /\ e = Put (loginRequest tok))
                 \/ (exists ms, e = Delay ms /\ ms <= 1000 * 60 * 60))
              (Keeper.iteration reloadable now st).
Proof.
  intros reloadable now st. unfold Keeper.iteration.
  destruct (Keeper.session st) as [[tok u]|] eqn:Es.
  - assert (Htok : Keeper.appToken st = Some tok).
    { unfold Keeper.session in Es.
      destruct (Keeper.appToken st) as [tok'|]; [|discriminate].
      destruct (Keeper.user st); [|discriminate].
      destruct (negb (String.eqb tok' "") && Keeper.isLogged st);
        [|discriminate].
      injection Es as -> _. reflexivity. }
    destruct (User.lastLoginAt u) as [last|].
    + destruct (generic_delay_bounded (Keeper.plan st) now)
        as (ms & -> & Hms).
      destruct (Keeper.reload_branch reloadable now last);
        [|destruct (Keeper.refresh_branch now last);
          [|destruct (Keeper.trial_just_expired (Keeper.plan st) now)]];
        (split; [unfold count; simpl; lia|]);
        repeat (apply Forall_cons; [keeper_item|]); apply Forall_nil.
    + split; [unfold count; simpl; lia | apply Forall_nil].
  - split; [unfold count; simpl; lia|].
    apply Forall_cons; [keeper_item | apply Forall_nil].
Qed.

(** X2.  The keeper reloads the page in a pass exactly when a complete
    session is present, the environment is reloadable and more than 48
    hours passed since [lastLoginAt]. *)
Theorem keeper_reload_iff :
  forall (reloadable : bool) (now : Z) (st : Keeper.Snapshot),
    In Reload (Keeper.iteration reloadable now st)
    <-> exists tok u last,
          Keeper.session st = Some (tok, u)
          /\ User.lastLoginAt u = Some last
          /\ reloadable = true
          /\ now - last > 1000 * 60 * 60 * 48.
Proof.
  intros reloadable now st. split.
  - unfold Keeper.iteration.
    destruct (Keeper.session st) as [[tok u]|] eqn:Es.
    + destruct (User.lastLoginAt u) as [last|] eqn:El;
        [|intros []].
      destruct (generic_delay_bounded (Keeper.plan st) now)
        as (ms & -> & _).
      destruct (Keeper.reload_branch reloadable now last) eqn:Er.
      * intros _. exists tok, u, last.
        unfold Keeper.reload_branch in Er.
        apply andb_true_iff in Er. destruct Er as [-> Er].
        apply Z.gtb_lt in Er. repeat split; auto. lia.
      * destruct (Keeper.refresh_branch now last);
          [|destruct (Keeper.trial_just_expired (Keeper.plan st) now)];
          simpl; intros H;
          repeat (destruct H as [H|H]; [discriminate H|]); destruct H.
    + simpl. intros [H|[]]. discriminate H.
  - intros (tok & u & last & Hs & Hl & -> & Hold).
    rewrite (iteration_ready now st tok u last Hs Hl).
    assert (E : Keeper.reload_branch true now last = true).
    { unfold Keeper.reload_branch. apply andb_true_iff.
      split; [reflexivity | apply Z.gtb_lt; lia]. }
    rewrite E. left. reflexivity.
Qed.

(** X3.  A pass of the loop has one of three forms: without a complete
    session it only waits for the next login-success; with a session whose
    user has no [lastLoginAt] it performs nothing at all and the loop
    restarts at once; otherwise its last effect is a sleep. *)
Theorem keeper_iteration_forms :
  forall (reloadable : bool) (now : Z) (st : Keeper.Snapshot),
    match Keeper.session st with
    | None => Keeper.iteration reloadable now st = [Take "LOGIN_SUCCESS"]
    | Some (tok, u) =>
        match User.lastLoginAt u with
        | None => Keeper.iteration reloadable now st = []
        | Some _ =>
            exists pre ms,
              Keeper.iteration reloadable now st = (pre ++ [Delay ms])%list
              /\ Forall (fun e => forall ms', e <> Delay ms') pre
        end
    end.
Proof.
  intros reloadable now st. unfold Keeper.iteration.
  destruct (Keeper.session st) as [[tok u]|]; [|reflexivity].
  destruct (User.lastLoginAt u) as [last|]; [|reflexivity].
  destruct (generic_delay_bounded (Keeper.plan st) now) as (ms & -> & _).
  destruct (Keeper.reload_branch reloadable now last);
    [|destruct (Keeper.refresh_branch now last);
      [|destruct (Keeper.trial_just_expired (Keeper.plan st) now)]].
  - exists [Reload], ms. split; [reflexivity|].
    repeat constructor. discriminate.
  - exists [Put (loginRequest tok)], ms. split; [reflexivity|].
    repeat constructor. discriminate.
  - exists [Put (loginRequest tok)], (1000 * 60 * 1).
    split; [reflexivity|]. repeat constructor. discriminate.
  - exists [], ms. split; [reflexivity | constructor].
Qed.

(** X4.  The trial-just-expired branch fires in every pass that falls in
    the five-minute window while the state keeps the same boundary: over
    such passes the keeper emits as many login-requests as there are
    passes. *)
Theorem keeper_window_requests_every_pass :
  forall (reloadable : bool) (tok : string) (u : User.t)
         (last t : Timestamp) (passes : list (Z * Keeper.Snapshot)),
    Forall (in_expiry_window tok u last t) passes ->
    count is_login_request (Keeper.init reloadable passes)
      = List.length passes.
Proof.
  intros reloadable tok u last t passes H.
  unfold Keeper.init, count. simpl filter.
  induction H as [|[now st] rest Hp _ IH]; [reflexivity|].
  destruct Hp as (Hs & Hl & Ht & Hrecent & Hpast & Hwin). simpl in *.
  rewrite filter_app, length_app, IH.
  rewrite (keeper_trial_just_expired reloadable now st tok u last t);
    auto; try lia.
  - unfold Keeper.reload_branch.
    replace (now - last >? 1000 * 60 * 60 * 48) with false
      by (symmetry; rewrite Z.gtb_ltb; apply Z.ltb_ge; lia).
    apply andb_false_r.
  - unfold Keeper.refresh_branch. rewrite Z.gtb_ltb. apply Z.ltb_ge. lia.
Qed.

Lemma keeper_window_requests_every_pass_witness :
  count is_login_request (Keeper.init false (expiry_passes 100000000))
    = 5%nat.
Proof.
  refine (keeper_window_requests_every_pass false "app-token"
            (user_on (plan_with_trial (Some 100000000))
               (100000000 - 1000 * 60 * 60))
            (100000000 - 1000 * 60 * 60) 100000000
            (expiry_passes 100000000) _).
  unfold expiry_passes, in_expiry_window. simpl.
  repeat (apply Forall_cons;
            [repeat split; simpl; try reflexivity; lia|]).
  apply Forall_nil.
Defined.

(* ================================================================= *)
(** ** Session exchanger and event reactor: further properties *)

(** X5.  In both modes and whatever the collaborators answer or throw,
    [onLoginRequest] returns normally and puts exactly one terminal event:
    either one login-success or one login-failure. *)
Theorem onLoginRequest_one_terminal_event :
  forall (local : bool) (appToken : string) (w : Saga.World),
    snd (Saga.onLoginRequest local appToken w) = inr tt
    /\ (count is_login_success (effects (Saga.onLoginRequest local appToken w))
        + count is_login_failure
            (effects (Saga.onLoginRequest local appToken w)) = 1)%nat.
Proof.
  intros local appToken w. split; [apply onLoginRequest_returns|].
  unfold Saga.onLoginRequest, Saga.login_attempt.
  destruct local.
  - destruct (Saga.getAuthenticated w) as [e|[d|]]; reflexivity.
  - destruct (Saga.post w) as [e|status body]; [reflexivity|].
    destruct (Saga.has_errors (Saga.body_errors body)); [reflexivity|].
    destruct (Saga.valid_login (Saga.body_data body)); reflexivity.
Qed.

(** X6.  Normalising the error that [createGraphQLError] builds gives back
    the message, the HTTP status and the error list of the response; when
    the response has no [errors], the list is the single entry 'Unknown
    GraphQL error'. *)
Theorem createGraphQLError_normalize :
  forall (T : Type) (message : string) (response : Saga.GraphQLResponse T),
    Saga.isGraphQLErrorResponse (Saga.createGraphQLError message response)
      = true
    /\ Saga.normalize (Saga.createGraphQLError message response)
       = {| AuthError.name := "Error";
            AuthError.message := message;
            AuthError.status := VPrim (PNum (Saga.gql_status response));
            AuthError.response :=
              VObj [("errors",
                     VArr match Saga.gql_errors response with
                          | Some errs => errs
                          | None =>
                              [VObj [("message",
                                      VPrim (PStr "Unknown GraphQL error"))]]
                          end)] |}.
Proof.
  intros T message response. split; reflexivity.
Qed.

(** X7.  In a normalised error [status] and [response] are set together:
    either both are [undefined], or [status] is a number and [response] is
    an object whose [errors] is an array. *)
Theorem normalize_status_and_response :
  forall error : value,
    (AuthError.status (Saga.normalize error) = undefined
     /\ AuthError.response (Saga.normalize error) = undefined)
    \/ (exists n : Z,
          AuthError.status (Saga.normalize error) = VPrim (PNum n)
          /\ truthy (AuthError.response (Saga.normalize error)) = true
          /\ typeof_object (AuthError.response (Saga.normalize error)) = true
          /\ isArray (prop (AuthError.response (Saga.normalize error))
                        "errors") = true).
Proof.
  intros error. unfold Saga.normalize. simpl.
  destruct (Saga.isGraphQLErrorResponse error) eqn:E;
    [right | left; split; reflexivity].
  unfold Saga.isGraphQLErrorResponse in E.
  destruct (negb (truthy error) || negb (typeof_object error));
    [discriminate|].
  repeat (apply andb_true_iff in E; destruct E as [E ?]).
  destruct (prop (prop error "response") "status") as [[| | |n|]| | |];
    try discriminate.
  exists n. repeat split; assumption.
Qed.



Lemma string_prop_of_object (x : value) (k s : string) :
  prop x k = VPrim (PStr s) -> truthy x = true.
Proof.
  destruct x as [p|l|props|n m props]; try reflexivity.
  destruct p; simpl; discriminate.
Qed.

Lemma some_unauthenticated_tagged (errors : list value) :
  Forall (fun e => get e "extensions" <> None) errors ->
  Exists tagged_entry errors ->
  Saga.some_unauthenticated errors = Some true.
Proof.
  intros Hread Htag. induction Htag as [e rest He|e rest _ IH]; simpl.
  - destruct He as (ext & -> & Hcode).
    rewrite (string_prop_of_object ext "code" _ Hcode), Hcode.
    reflexivity.
  - inversion Hread as [|? ? He Hrest]; subst.
    destruct (get e "extensions") as [ext|]; [|contradiction].
    destruct (truthy ext && is_str (prop ext "code") "UNAUTHENTICATED");
      [reflexivity | apply IH; exact Hrest].
Qed.

(** X9.  A login-failure whose body holds, under [response.data.errors],
    an entry tagged UNAUTHENTICATED makes the reactor emit exactly one
    logout, whatever the status, provided every entry of the array is an
    object or a primitive other than [undefined] and [null]. *)
Theorem login_failure_tagged_logout :
  forall (err : AuthError.t) (errors : list value),
    prop (prop (AuthError.response err) "data") "errors" = VArr errors ->
    Forall (fun e => get e "extensions" <> None) errors ->
    Exists tagged_entry errors ->
    Saga.onLoginFailure (Some err) = ([Put logout], inr tt).
Proof.
  intros err errors Hpath Hread Htag.
  assert (Hd : truthy (prop (AuthError.response err) "data")
               && typeof_object (prop (AuthError.response err) "data")
               = true)
    by (apply (prop_of_object _ "errors"); rewrite Hpath; reflexivity).
  assert (Hr : truthy (AuthError.response err)
               && typeof_object (AuthError.response err) = true)
    by (apply (prop_of_object _ "data"); exact Hd).
  apply andb_true_iff in Hd, Hr. destruct Hd as [Hd _], Hr as [Hr _].
  unfold Saga.onLoginFailure, Saga.must_logout.
  destruct (is_num (AuthError.status err) 401); [reflexivity|].
  rewrite Hr.
  destruct (is_num (prop (AuthError.response err) "status") 401);
    [reflexivity|].
  rewrite Hd, Hpath, (some_unauthenticated_tagged errors Hread Htag).
  reflexivity.
Qed.

Lemma login_failure_tagged_logout_witness :
  Saga.onLoginFailure
    (Some (error_with_entries
             [VObj [("message", VPrim (PStr "first"))];
              unauthenticated_entry]))
    = ([Put logout], inr tt).
Proof.
  refine (login_failure_tagged_logout
            (error_with_entries
               [VObj [("message", VPrim (PStr "first"))];
                unauthenticated_entry])
            [VObj [("message", VPrim (PStr "first"))];
             unauthenticated_entry] eq_refl _ _).
  - repeat (apply Forall_cons; [discriminate|]). apply Forall_nil.
  - apply Exists_cons_tl. apply Exists_cons_hd.
    exists (VObj [("code", VPrim (PStr "UNAUTHENTICATED"))]).
    split; reflexivity.
Defined.

(** X10.  When the status is not 401 and the first entry of
    [response.data.errors] is [undefined] or [null], the reactor stops on
    the failed property read: it throws and emits no logout, even if a
    later entry is tagged UNAUTHENTICATED. *)
Theorem login_failure_null_entry_throws :
  forall (err : AuthError.t) (e : value) (rest : list value),
    is_num (AuthError.status err) 401 = false ->
    nested_401 err = false ->
    prop (prop (AuthError.response err) "data") "errors" = VArr (e :: rest) ->
    get e "extensions" = None ->
    exists thrown : value,
      Saga.onLoginFailure (Some err) = ([], inl thrown).
Proof.
  intros err e rest Hs Hn Hpath Hnull.
  assert (Hd : truthy (prop (AuthError.response err) "data")
               && typeof_object (prop (AuthError.response err) "data")
               = true)
    by (apply (prop_of_object _ "errors"); rewrite Hpath; reflexivity).
  assert (Hr : truthy (AuthError.response err)
               && typeof_object (AuthError.response err) = true)
    by (apply (prop_of_object _ "data"); exact Hd).
  apply andb_true_iff in Hd, Hr. destruct Hd as [Hd _], Hr as [Hr _].
  unfold nested_401 in Hn.
  unfold Saga.onLoginFailure, Saga.must_logout.
  rewrite Hs, Hr, Hn, Hd, Hpath. simpl. rewrite Hnull.
  eexists. reflexivity.
Qed.

Lemma login_failure_null_entry_throws_witness :
  exists thrown : value,
    Saga.onLoginFailure
      (Some (error_with_entries [VPrim PNull; unauthenticated_entry]))
      = ([], inl thrown).
Proof.
  exact (login_failure_null_entry_throws
           (error_with_entries [VPrim PNull; unauthenticated_entry])
           (VPrim PNull) [unauthenticated_entry]
           eq_refl eq_refl eq_refl eq_refl).
Defined.

(* ================================================================= *)
(** ** The remaining sagas: properties *)

Lemma positive_multiple_of_5 (n : Z) :
  (n >=? 5) && (Z.rem n 5 =? 0) = true <-> exists k, 1 <= k /\ n = 5 * k.
Proof.
  rewrite andb_true_iff, Z.geb_leb, Z.leb_le, Z.eqb_eq. split.
  - intros [Hge Hrem]. exists (Z.quot n 5).
    pose proof (Z.quot_rem' n 5) as H. lia.
  - intros (k & Hk & ->). split; [lia|].
    rewrite Z.mul_comm. apply Z.rem_mul. lia.
Qed.

(** X11.  After a login-success the reactor asks for a store review
    exactly when the review is available, the build is not a development
    build and the login counter is a positive multiple of 5; in every case
    it first clears the OAuth query parameters and last puts the clean-up
    of archived items. *)
Theorem onLoginSuccess_review :
  forall (isAvailable dev : bool) (loginCount : Z),
    (In RequestReview (Reactor.onLoginSuccess isAvailable dev loginCount)
     <-> isAvailable = true /\ dev = false
         /\ exists k, 1 <= k /\ loginCount = 5 * k)
    /\ (count_review (Reactor.onLoginSuccess isAvailable dev loginCount)
        <= 1)%nat
    /\ exists middle,
         Reactor.onLoginSuccess isAvailable dev loginCount
         = (ClearOAuthQueryParams :: middle
            ++ [PutMore cleanupArchivedItems])%list.
Proof.
  intros isAvailable dev loginCount.
  unfold Reactor.onLoginSuccess, count_review.
  pose proof (positive_multiple_of_5 loginCount) as Hmul.
  split; [|split; [|eexists; reflexivity]].
  - destruct ((loginCount >=? 5) && (Z.rem loginCount 5 =? 0)).
    + destruct isAvailable, dev; simpl; split;
        try (intros [H|[H|[]]]; discriminate H);
        try (intros (H1 & H2 & _); discriminate);
        try (intros _; repeat split; apply Hmul; reflexivity);
        try (intros _; right; left; reflexivity).
    + assert (Hno : ~ exists k, 1 <= k /\ loginCount = 5 * k)
        by (intros H; apply Hmul in H; discriminate H).
      destruct isAvailable, dev; simpl; split;
        try (intros [H|[H|[]]]; discriminate H);
        try (intros (_ & _ & H); contradiction).
  - destruct (isAvailable && negb dev);
      [destruct ((loginCount >=? 5) && (Z.rem loginCount 5 =? 0))|];
      simpl; lia.
Qed.

Lemma or_prim_left (a b : prim) : truthy_prim a = true -> or_prim a b = a.
Proof. intros H. unfold or_prim. rewrite H. reflexivity. Qed.

Lemma or_prim_right (a b : prim) : truthy_prim a = false -> or_prim a b = b.
Proof. intros H. unfold or_prim. rewrite H. reflexivity. Qed.

(** X12.  The label [updateLoggedUserOnTools] hands to the crash reporter
    is never [undefined], [null] or another falsy value than the empty
    string: it is the first truthy one of the GitHub user's login, name
    and id, and the empty string when there is none. *)
Theorem bugsnag_label_is_defined :
  forall g : option GitHubUser.t,
    (Reactor.bugsnag_label g = PStr ""
     /\ forall gu, g = Some gu ->
          truthy_prim (GitHubUser.login gu) = false
          /\ truthy_prim (GitHubUser.name gu) = false
          /\ truthy_prim (GitHubUser.id gu) = false)
    \/ (truthy_prim (Reactor.bugsnag_label g) = true
        /\ exists gu, g = Some gu
           /\ (Reactor.bugsnag_label g = GitHubUser.login gu
               \/ (truthy_prim (GitHubUser.login gu) = false
                   /\ Reactor.bugsnag_label g = GitHubUser.name gu)
               \/ (truthy_prim (GitHubUser.login gu) = false
                   /\ truthy_prim (GitHubUser.name gu) = false
                   /\ Reactor.bugsnag_label g = GitHubUser.id gu))).
Proof.
  intros [gu|]; unfold Reactor.bugsnag_label.
  - destruct (truthy_prim (GitHubUser.login gu)) eqn:El.
    + right. rewrite (or_prim_left _ (GitHubUser.name gu) El).
      rewrite (or_prim_left _ (GitHubUser.id gu) El).
      rewrite (or_prim_left _ (PStr "") El).
      split; [exact El|].
      exists gu. split; [reflexivity | left; reflexivity].
    + rewrite (or_prim_right _ (GitHubUser.name gu) El).
      destruct (truthy_prim (GitHubUser.name gu)) eqn:En.
      * right. rewrite (or_prim_left _ (GitHubUser.id gu) En).
        rewrite (or_prim_left _ (PStr "") En).
        split; [exact En|].
        exists gu. split; [reflexivity | right; left; auto].
      * rewrite (or_prim_right _ (GitHubUser.id gu) En).
        destruct (truthy_prim (GitHubUser.id gu)) eqn:Ei.
        -- right. rewrite (or_prim_left _ (PStr "") Ei).
           split; [exact Ei|].
           exists gu. split; [reflexivity | right; right; auto].
        -- left. rewrite (or_prim_right _ (PStr "") Ei).
           split; [reflexivity|].
           intros gu' [= <-]. auto.
  - left. split; [reflexivity | intros gu H; discriminate H].
Qed.

(* ================================================================= *)
(** ** Account deletion: properties *)

(** X13.  Whatever the backend answers or the request throws,
    [onDeleteAccountRequest] puts exactly one terminal event; it is
    delete-account-success exactly when the answer has no errors and its
    [deleteAccount] is the boolean [true]. *)
Theorem onDeleteAccountRequest_one_terminal_event :
  forall post : Reactor.DeleteOutcome,
    (List.length (filter is_delete_success
                    (Reactor.onDeleteAccountRequest post))
     + List.length (filter is_delete_failure
                      (Reactor.onDeleteAccountRequest post)) = 1)%nat
    /\ (In (PutMore deleteAccountSuccess) (Reactor.onDeleteAccountRequest post)
        <-> exists status body,
              post = Reactor.DeleteReturns status body
              /\ Saga.has_errors (Reactor.delete_errors body) = false
              /\ Reactor.delete_data body = Some (PBool true)).
Proof.
  intros post. unfold Reactor.onDeleteAccountRequest, Reactor.delete_attempt.
  destruct post as [e|status body].
  - split; [reflexivity|]. split.
    + intros [H|[H|[H|[]]]]; discriminate H.
    + intros (s & b & H & _). discriminate H.
  - destruct (Saga.has_errors (Reactor.delete_errors body)) eqn:He.
    + split; [reflexivity|]. split.
      * intros [H|[H|[H|[]]]]; discriminate H.
      * intros (s & b & [= <- <-] & H & _). congruence.
    + destruct (Reactor.delete_data body) as [[| |[|]| |]|] eqn:Ed; simpl;
        (split; [reflexivity|]); split;
        try (intros [H|[H|[H|[]]]]; discriminate H);
        try (intros (st' & bd' & [= <- <-] & _ & H); congruence).
      * intros _. exists status, body. auto.
      * intros _. left. reflexivity.
Qed.

Lemma trim_right_app_keep (s1 s2 : string) :
  trim_right s2 <> EmptyString ->
  trim_right (String.append s1 s2) = String.append s1 (trim_right s2).
Proof.
  intros Hne. induction s1 as [|c r IH]; [reflexivity|].
  simpl. rewrite IH.
  destruct (String.append r (trim_right s2)) eqn:E; [|reflexivity].
  exfalso. destruct r; simpl in E; [contradiction | discriminate].
Qed.

Lemma trim_right_app_drop (s1 s2 : string) :
  trim_right s2 = EmptyString ->
  trim_right (String.append s1 s2) = trim_right s1.
Proof.
  intros He. induction s1 as [|c r IH]; [exact He|].
  simpl. rewrite IH. reflexivity.
Qed.

(** X14.  The alert of a failed account deletion reads the fixed sentence
    alone when the detail is blank, and otherwise the sentence, an empty
    line and the detail without its trailing white space. *)
Theorem delete_alert_text_cases :
  forall error : value,
    let detail := trim_right (to_string (Reactor.failure_detail error)) in
    Reactor.delete_alert_text error
    = if String.eqb detail ""
      then delete_alert_head
      else String.append delete_alert_head
             (String.append newline (String.append newline detail)).
Proof.
  intros error. cbv zeta. unfold Reactor.delete_alert_text, trim.
  set (d := to_string (Reactor.failure_detail error)).
  change (trim_left
            (String.append "Failed to delete account. Please try again."
               (String.append newline (String.append newline d))))
    with (String.append delete_alert_head
            (String.append newline (String.append newline d))).
  destruct (String.eqb (trim_right d) "") eqn:E.
  - apply String.eqb_eq in E.
    rewrite trim_right_app_drop; [reflexivity|].
    simpl. rewrite E. reflexivity.
  - apply String.eqb_neq in E.
    assert (E2 : trim_right (String.append newline (String.append newline d))
                 = String.append newline
                     (String.append newline (trim_right d))).
    { rewrite (trim_right_app_keep newline);
        rewrite (trim_right_app_keep newline); auto.
      destruct (trim_right d); [contradiction | discriminate]. }
    rewrite trim_right_app_keep; rewrite E2; [reflexivity|].
    discriminate.
Qed.

(** X15.  A deletion the backend answers without errors but does not
    confirm ends in a delete-account-failure carrying a fresh [Error]:
    'Failed to delete account' when [deleteAccount] is the boolean
    [false], 'Invalid response' when it is anything else or [data] is
    missing; the alert then shows the fixed sentence, an empty line and
    that message. *)
Theorem delete_not_confirmed_alert :
  forall (status : Z) (body : Reactor.DeleteBody),
    Saga.has_errors (Reactor.delete_errors body) = false ->
    Reactor.delete_data body <> Some (PBool true) ->
    let message :=
      match Reactor.delete_data body with
      | Some (PBool false) => "Failed to delete account"
      | _ => "Invalid response"
      end in
    Reactor.onDeleteAccountRequest (Reactor.DeleteReturns status body)
      = [Base (ConsoleError [VPrim (PStr "Delete account failed");
                             new_Error message]);
         Base (BugsnagNotify (new_Error message) None);
         PutMore (deleteAccountFailure (new_Error message))]
    /\ Reactor.onDeleteAccountFailure (new_Error message)
       = [Base (BugsnagNotify (new_Error message) None);
          AlertAlert "Oops."
            (String.append delete_alert_head
               (String.append newline (String.append newline message)))].
Proof.
  intros status body He Hd. cbv zeta.
  unfold Reactor.onDeleteAccountRequest, Reactor.delete_attempt.
  rewrite He.
  destruct (Reactor.delete_data body) as [[| |[|]| |]|];
    try contradiction; split; reflexivity.
Qed.

Lemma delete_not_confirmed_alert_witness :
  Reactor.onDeleteAccountFailure (new_Error "Failed to delete account")
    = [Base (BugsnagNotify (new_Error "Failed to delete account") None);
       AlertAlert "Oops."
         (String.append delete_alert_head
            (String.append newline
               (String.append newline "Failed to delete account")))].
Proof.
  refine (proj2 (delete_not_confirmed_alert 200
                   {| Reactor.delete_data := Some (PBool false);
                      Reactor.delete_errors := None |} eq_refl _)).
  discriminate.
Defined.

(** X16.  A deletion the backend answers with GraphQL errors ends in a
    delete-account-failure that carries the structured error itself, with
    the HTTP status and the entries; the alert shows the generic text
    'GraphQL Error' and none of the messages of the entries. *)
Theorem delete_graphql_failure :
  forall (status : Z) (body : Reactor.DeleteBody) (e : value)
         (errs : list value),
    Reactor.delete_errors body = Some (e :: errs) ->
    let thrown :=
      Saga.createGraphQLError "GraphQL Error"
        (Saga.mkGraphQLResponse body status (Some (e :: errs))) in
    Reactor.onDeleteAccountRequest (Reactor.DeleteReturns status body)
      = [Base (ConsoleError [VPrim (PStr "Delete account failed"); thrown]);
         Base (BugsnagNotify thrown None);
         PutMore (deleteAccountFailure thrown)]
    /\ prop (prop thrown "response") "status" = VPrim (PNum status)
    /\ prop (prop (prop thrown "response") "data") "errors"
       = VArr (e :: errs)
    /\ Reactor.delete_alert_text thrown
       = String.append delete_alert_head
           (String.append newline (String.append newline "GraphQL Error")).
Proof.
  intros status body e errs He. cbv zeta.
  unfold Reactor.onDeleteAccountRequest, Reactor.delete_attempt.
  rewrite He. repeat split; reflexivity.
Qed.

Lemma delete_graphql_failure_witness :
  Reactor.onDeleteAccountRequest
    (Reactor.DeleteReturns 200
       {| Reactor.delete_data := None;
          Reactor.delete_errors := Some [unauthenticated_entry] |})
    = [Base (ConsoleError
               [VPrim (PStr "Delete account failed");
                Saga.createGraphQLError "GraphQL Error"
                  (Saga.mkGraphQLResponse
                     {| Reactor.delete_data := None;
                        Reactor.delete_errors :=
                          Some [unauthenticated_entry] |}
                     200 (Some [unauthenticated_entry]))]);
       Base (BugsnagNotify
               (Saga.createGraphQLError "GraphQL Error"
                  (Saga.mkGraphQLResponse
                     {| Reactor.delete_data := None;
                        Reactor.delete_errors :=
                          Some [unauthenticated_entry] |}
                     200 (Some [unauthenticated_entry]))) None);
       PutMore (deleteAccountFailure
                  (Saga.createGraphQLError "GraphQL Error"
                     (Saga.mkGraphQLResponse
                        {| Reactor.delete_data := None;
                           Reactor.delete_errors :=
                             Some [unauthenticated_entry] |}
                        200 (Some [unauthenticated_entry]))))].
Proof.
  exact (proj1 (delete_graphql_failure 200
                  {| Reactor.delete_data := None;
                     Reactor.delete_errors := Some [unauthenticated_entry] |}
                  unauthenticated_entry [] eq_refl)).
Defined.

(* ================================================================= *)
(** ** Personal-token login: further properties *)

Lemma handleAuthError_no_dispatch (e : value) (d : option string)
  (a : action) :
  ~ In (Dispatch a) (LoginHelpers.handleAuthError e d).
Proof.
  unfold LoginHelpers.handleAuthError.
  destruct (truthy e),
    (LoginHelpers.suppressed
       (to_Error e (LoginHelpers.string_or_unknown e)));
    simpl; intros H;
    repeat (destruct H as [H|H]; [discriminate H|]); exact H.
Qed.

(** The two ways a personal-token login ends once the prompt gave a
    token and the identity endpoint answered. *)
Lemma pat_login_after_get (c : LoginHelpers.Context) (token : string)
  (data : option RestUser.t) (hdr : prim) :
  LoginHelpers.prompt c = Some token ->
  LoginHelpers.nonempty token = true ->
  LoginHelpers.get_user c = LoginHelpers.GetReturns data hdr ->
  LoginHelpers.loginWithGitHubPersonalAccessToken c
  = match LoginHelpers.validate c token data hdr with
    | (l, inl e) =>
        (([TrackEvent "engagement" "login"; SetIsExecutingOAuth true;
           SetPATLoadingState (Some "adding")]
          ++ l
          ++ LoginHelpers.handleAuthError e
               (Some "Personal access token login failed")
          ++ [SetIsExecutingOAuth false; SetPATLoadingState None])%list,
         inr tt)
    | (l, inr _) =>
        (([TrackEvent "engagement" "login"; SetIsExecutingOAuth true;
           SetPATLoadingState (Some "adding")]
          ++ l
          ++ [SetIsExecutingOAuth false; SetPATLoadingState None])%list,
         inr tt)
    end.
Proof.
  intros Hp Ht Hg.
  unfold LoginHelpers.loginWithGitHubPersonalAccessToken,
    LoginHelpers.pat_attempt.
  rewrite Hp, Ht, Hg. simpl negb. cbv iota.
  unfold bind, emit, try_catch.
  destruct (LoginHelpers.validate c token data hdr) as [l [e|[]]]; simpl.
  - rewrite <- !app_assoc. reflexivity.
  - reflexivity.
Qed.

(** The effects of a login that fails with [e] before any request. *)
Lemma pat_login_early (c : LoginHelpers.Context) (pre : list effect)
  (e : value) :
  LoginHelpers.pat_attempt c = (pre, inl e) ->
  LoginHelpers.loginWithGitHubPersonalAccessToken c
  = ((pre ++ LoginHelpers.handleAuthError e
               (Some "Personal access token login failed")
          ++ [SetIsExecutingOAuth false; SetPATLoadingState None])%list,
     inr tt).
Proof.
  intros H. unfold LoginHelpers.loginWithGitHubPersonalAccessToken.
  rewrite H. unfold try_catch, bind, emit. simpl.
  rewrite <- !app_assoc. reflexivity.
Qed.

Lemma pat_attempt_cases (c : LoginHelpers.Context) :
  (exists pre e, LoginHelpers.pat_attempt c = (pre, inl e)
                 /\ (forall a, ~ In (Dispatch a) pre)
                 /\ filter is_login_request pre = [])
  \/ (exists token data hdr,
        LoginHelpers.prompt c = Some token
        /\ LoginHelpers.nonempty token = true
        /\ LoginHelpers.get_user c = LoginHelpers.GetReturns data hdr).
Proof.
  unfold LoginHelpers.pat_attempt.
  destruct (LoginHelpers.prompt c) as [token|] eqn:Hp.
  - destruct (LoginHelpers.nonempty token) eqn:Ht.
    + destruct (LoginHelpers.get_user c) as [e|data hdr] eqn:Hg.
      * left. eexists; eexists. split; [reflexivity|].
        split; [|reflexivity].
        simpl. intros a H.
        repeat (destruct H as [H|H]; [discriminate H|]). exact H.
      * right. exists token, data, hdr. auto.
    + left. eexists; eexists. split; [reflexivity|].
      split; [|reflexivity].
      simpl. intros a [H|[]]. discriminate H.
  - left. eexists; eexists. split; [reflexivity|].
    split; [|reflexivity].
    simpl. intros a [H|[]]. discriminate H.
Qed.


Lemma adopt_dispatch (c : LoginHelpers.Context) (token : string)
  (d : RestUser.t) (scope : list string) (t : string) :
  In (Dispatch (loginRequest t))
     (fst (LoginHelpers.adopt c token d scope))
  <-> granted c token t.
Proof.
  unfold LoginHelpers.adopt, granted.
  destruct (LoginHelpers.LOCAL_ONLY_PERSONAL_ACCESS_TOKEN c).
  - simpl. split.
    + intros [H|[H|[]]]; [discriminate H | injection H as ->; reflexivity].
    + intros ->. right. left. reflexivity.
  - destruct (LoginHelpers.post_exchange c) as [e|body].
    + simpl. split; [intros [] | intros (b & H & _); discriminate H].
    + destruct (LoginHelpers.errors body) as [[|e es]|] eqn:Ee.
      * destruct (LoginHelpers.data body) as [[[tok|]|]|] eqn:Ed;
          try (simpl; split;
               [intros [] | intros (b & [= <-] & _ & H & _); congruence]).
        destruct (LoginHelpers.nonempty tok) eqn:Ht; simpl; split.
        -- intros [H|[]]. injection H as ->.
           exists body. auto.
        -- intros (b & [= <-] & _ & H & _). left. congruence.
        -- intros [].
        -- intros (b & [= <-] & _ & H & Hn). congruence.
      * simpl. split; [intros []|].
        intros (b & [= <-] & [H|H] & _); congruence.
      * destruct (LoginHelpers.data body) as [[[tok|]|]|] eqn:Ed;
          try (simpl; split;
               [intros [] | intros (b & [= <-] & _ & H & _); congruence]).
        destruct (LoginHelpers.nonempty tok) eqn:Ht; simpl; split.
        -- intros [H|[]]. injection H as ->.
           exists body. auto.
        -- intros (b & [= <-] & _ & H & _). left. congruence.
        -- intros [].
        -- intros (b & [= <-] & _ & H & Hn). congruence.
Qed.

Lemma validate_dispatch (c : LoginHelpers.Context) (token : string)
  (data : option RestUser.t) (hdr : prim) (t : string) :
  In (Dispatch (loginRequest t))
     (fst (LoginHelpers.validate c token data hdr))
  <-> checks_pass c data hdr /\ granted c token t.
Proof.
  unfold LoginHelpers.validate, checks_pass.
  destruct (LoginHelpers.identity_of data) as [d|] eqn:Hid.
  - destruct (LoginHelpers.different_user d
                (LoginHelpers.loggedGitHubUserId c)) eqn:Hdiff.
    + simpl. split; [intros [] |].
      intros [(d' & [= <-] & H & _) _]. congruence.
    + destruct (LoginHelpers.missing_repo (LoginHelpers.parse_scopes hdr))
        eqn:Hm.
      * simpl. split; [intros [] |].
        intros [(d' & _ & _ & H) _]. discriminate H.
      * rewrite adopt_dispatch. split.
        -- intros H. split; [exists d; auto | exact H].
        -- intros [_ H]. exact H.
  - simpl. split; [intros [] |].
    intros [(d' & H & _) _]. discriminate H.
Qed.

(** X18.  The personal-token login dispatches a login-request carrying
    [t] exactly when the user gave a non-empty token, the identity
    endpoint answered, the identity, account and scope checks all passed,
    and [t] is the pasted token (local-only mode) or the non-empty
    [appToken] of an error-free answer of the backend (otherwise). *)
Theorem pat_login_request_iff :
  forall (c : LoginHelpers.Context) (t : string),
    In (Dispatch (loginRequest t))
       (effects (LoginHelpers.loginWithGitHubPersonalAccessToken c))
    <-> exists token data hdr,
          LoginHelpers.prompt c = Some token
          /\ LoginHelpers.nonempty token = true
          /\ LoginHelpers.get_user c = LoginHelpers.GetReturns data hdr
          /\ checks_pass c data hdr
          /\ granted c token t.
Proof.
  intros c t.
  destruct (pat_attempt_cases c)
    as [(pre & e & H & Hpre & _)|(token & data & hdr & Hp & Ht & Hg)].
  - rewrite (pat_login_early c pre e H). unfold effects. cbn [fst]. split.
    + intros Hin. apply in_app_or in Hin. destruct Hin as [Hin|Hin].
      * exfalso. exact (Hpre _ Hin).
      * apply in_app_or in Hin. destruct Hin as [Hin|Hin].
        -- exfalso. exact (handleAuthError_no_dispatch _ _ _ Hin).
        -- destruct Hin as [Hin|[Hin|[]]]; discriminate Hin.
    + intros (token & data & hdr & Hp & Ht & Hg & Hc & Hgr). exfalso.
      assert (Hv : In (Dispatch (loginRequest t))
                      (fst (LoginHelpers.validate c token data hdr)))
        by (apply validate_dispatch; auto).
      unfold LoginHelpers.pat_attempt in H. rewrite Hp, Ht, Hg in H.
      simpl negb in H. cbv iota in H. unfold bind, emit in H.
      destruct (LoginHelpers.validate c token data hdr) as [l [e'|[]]];
        cbn [fst] in Hv; simpl in H.
      * injection H as <- _. apply (Hpre (loginRequest t)).
        right. right. right. exact Hv.
      * discriminate H.
  - rewrite (pat_login_after_get c token data hdr Hp Ht Hg).
    pose proof (validate_dispatch c token data hdr t) as Hv.
    destruct (LoginHelpers.validate c token data hdr) as [l [e|u]];
      unfold effects; cbn [fst] in *; split.
    + intros Hin. cbn [app] in Hin.
      destruct Hin as [Hin|[Hin|[Hin|Hin]]]; try discriminate Hin.
      apply in_app_or in Hin. destruct Hin as [Hin|Hin].
      * exists token, data, hdr. apply Hv in Hin. tauto.
      * apply in_app_or in Hin. destruct Hin as [Hin|Hin].
        -- exfalso. exact (handleAuthError_no_dispatch _ _ _ Hin).
        -- destruct Hin as [Hin|[Hin|[]]]; discriminate Hin.
    + intros (token' & data' & hdr' & Hp' & _ & Hg' & Hc & Hgr).
      rewrite Hp in Hp'. injection Hp' as <-.
      rewrite Hg in Hg'. injection Hg' as <- <-.
      cbn [app]. right. right. right. apply in_or_app. left.
      apply Hv. auto.
    + intros Hin. cbn [app] in Hin.
      destruct Hin as [Hin|[Hin|[Hin|Hin]]]; try discriminate Hin.
      apply in_app_or in Hin. destruct Hin as [Hin|Hin].
      * exists token, data, hdr. apply Hv in Hin. tauto.
      * destruct Hin as [Hin|[Hin|[]]]; discriminate Hin.
    + intros (token' & data' & hdr' & Hp' & _ & Hg' & Hc & Hgr).
      rewrite Hp in Hp'. injection Hp' as <-.
      rewrite Hg in Hg'. injection Hg' as <- <-.
      cbn [app]. right. right. right. apply in_or_app. left.
      apply Hv. auto.
Qed.

Lemma validate_request_count (c : LoginHelpers.Context) (token : string)
  (data : option RestUser.t) (hdr : prim) :
  (count is_login_request (fst (LoginHelpers.validate c token data hdr))
   <= 1)%nat.
Proof.
  unfold LoginHelpers.validate, LoginHelpers.adopt, count.
  destruct (LoginHelpers.identity_of data) as [d|]; [|simpl; lia].
  destruct (LoginHelpers.different_user d
              (LoginHelpers.loggedGitHubUserId c)); [simpl; lia|].
  destruct (LoginHelpers.missing_repo (LoginHelpers.parse_scopes hdr));
    [simpl; lia|].
  destruct (LoginHelpers.LOCAL_ONLY_PERSONAL_ACCESS_TOKEN c); [simpl; lia|].
  destruct (LoginHelpers.post_exchange c) as [e|body]; [simpl; lia|].
  destruct (LoginHelpers.errors body) as [[|e es]|];
    try (simpl; lia);
    destruct (LoginHelpers.data body) as [[[tok|]|]|]; try (simpl; lia);
    destruct (LoginHelpers.nonempty tok); simpl; lia.
Qed.

(** X19.  One personal-token login dispatches at most one
    login-request. *)
Theorem pat_login_at_most_one_request :
  forall c : LoginHelpers.Context,
    (count is_login_request
       (effects (LoginHelpers.loginWithGitHubPersonalAccessToken c))
     <= 1)%nat.
Proof.
  intros c.
  destruct (pat_attempt_cases c)
    as [(pre & e & H & _ & Hz)|(token & data & hdr & Hp & Ht & Hg)].
  - rewrite (pat_login_early c pre e H). unfold effects, count. cbn [fst].
    rewrite !filter_app, handleAuthError_no_request, !length_app.
    rewrite Hz. simpl. lia.
  - rewrite (pat_login_after_get c token data hdr Hp Ht Hg).
    pose proof (validate_request_count c token data hdr) as Hv.
    unfold count in *.
    destruct (LoginHelpers.validate c token data hdr) as [l [e|u]];
      unfold effects; cbn [fst] in *;
      rewrite !filter_app, ?handleAuthError_no_request, !length_app;
      simpl; lia.
Qed.

(* ================================================================= *)
(** ** Parsing of the granted scopes: properties *)

Section ScopeFacts.

Import LoginHelpers.

Let clean (c : ascii) : bool := negb (is_space c) && negb (Ascii.eqb c comma).

Lemma remove_spaces_clean (s : string) :
  string_forall (fun c => negb (is_space c)) (remove_spaces s) = true.
Proof.
  induction s as [|c r IH]; [reflexivity|].
  simpl. destruct (is_space c) eqn:E; [exact IH|].
  simpl. rewrite E, IH. reflexivity.
Qed.

Lemma split_entries (f : ascii -> bool) (s : string) :
  string_forall f s = true ->
  Forall (fun x => string_forall
                     (fun c => f c && negb (Ascii.eqb c comma)) x = true)
         (split comma s).
Proof.
  induction s as [|c r IH]; intros H.
  - repeat constructor.
  - simpl in H. apply andb_true_iff in H. destruct H as [Hc Hr].
    specialize (IH Hr). simpl.
    destruct (Ascii.eqb c comma) eqn:E.
    + constructor; [reflexivity | exact IH].
    + destruct (split_cons comma r) as (h & t & Hs). rewrite Hs in *.
      inversion IH as [|? ? Hh Ht]; subst.
      constructor; [|exact Ht].
      simpl. rewrite Hc, E, Hh. reflexivity.
Qed.

Lemma remove_spaces_id (s : string) :
  string_forall clean s = true -> remove_spaces s = s.
Proof.
  induction s as [|c r IH]; [reflexivity|]. simpl. unfold clean at 1.
  intros H. apply andb_true_iff in H. destruct H as [Hc Hr].
  apply andb_true_iff in Hc. destruct Hc as [Hc _].
  apply negb_true_iff in Hc. rewrite Hc, (IH Hr). reflexivity.
Qed.

Lemma remove_spaces_app (a b : string) :
  remove_spaces (String.append a b)
  = String.append (remove_spaces a) (remove_spaces b).
Proof.
  induction a as [|c r IH]; [reflexivity|].
  simpl. destruct (is_space c); rewrite IH; reflexivity.
Qed.

Lemma split_entry_then (s r : string) :
  string_forall clean s = true ->
  split comma (String.append s (String comma r)) = s :: split comma r.
Proof.
  induction s as [|c s' IH]; intros H.
  - reflexivity.
  - simpl in H. unfold clean at 1 in H.
    apply andb_true_iff in H. destruct H as [Hc Hs].
    apply andb_true_iff in Hc. destruct Hc as [_ Hc].
    apply negb_true_iff in Hc.
    simpl. rewrite Hc, (IH Hs). reflexivity.
Qed.

Lemma split_single (s : string) :
  string_forall clean s = true -> split comma s = [s].
Proof.
  induction s as [|c s' IH]; intros H; [reflexivity|].
  simpl in H. unfold clean at 1 in H.
  apply andb_true_iff in H. destruct H as [Hc Hs].
  apply andb_true_iff in Hc. destruct Hc as [_ Hc].
  apply negb_true_iff in Hc.
  simpl. rewrite Hc, (IH Hs). reflexivity.
Qed.

Lemma split_joined (x : string) (l : list string) :
  Forall scope_name (x :: l) ->
  split comma (remove_spaces (String.concat ", " (x :: l))) = x :: l.
Proof.
  revert x. induction l as [|y l IH]; intros x H.
  - inversion H as [|? ? [_ Hx] _]; subst. simpl.
    rewrite (remove_spaces_id x Hx). apply split_single. exact Hx.
  - inversion H as [|? ? [_ Hx] Hrest]; subst.
    change (String.concat ", " (x :: y :: l))
      with (String.append x
              (String.append ", " (String.concat ", " (y :: l)))).
    rewrite remove_spaces_app, (remove_spaces_id x Hx).
    change (remove_spaces
              (String.append ", " (String.concat ", " (y :: l))))
      with (String comma
              (remove_spaces (String.concat ", " (y :: l)))).
    rewrite (split_entry_then x _ Hx), (IH y Hrest). reflexivity.
Qed.

Lemma filter_scope_names (l : list string) :
  Forall scope_name l -> filter nonempty l = l.
Proof.
  induction 1 as [|x l [Hx _] _ IH]; [reflexivity|].
  simpl. unfold nonempty at 1.
  apply String.eqb_neq in Hx. rewrite Hx. simpl. rewrite IH. reflexivity.
Qed.

End ScopeFacts.

(** X20.  Every scope that the parsing of the [x-oauth-scopes] header
    yields is a non-empty name without white space and without comma,
    whatever the header holds. *)
Theorem parse_scopes_yields_names :
  forall header : prim, Forall scope_name (LoginHelpers.parse_scopes header).
Proof.
  intros header. unfold LoginHelpers.parse_scopes.
  set (s := tmpl (or_prim header (PStr ""))).
  pose proof (split_entries _ _ (remove_spaces_clean s)) as H.
  induction H as [|x l Hx _ IH]; simpl; [constructor|].
  unfold LoginHelpers.nonempty at 1.
  destruct (String.eqb x "") eqn:E; simpl; [exact IH|].
  constructor; [|exact IH].
  split; [apply String.eqb_neq; exact E | exact Hx].
Qed.

(** X21.  The parsing inverts the way GitHub writes the header: for any
    list of scope names, parsing the names joined by a comma and a space
    gives the list back, in order and with its repetitions. *)
Theorem parse_scopes_of_joined :
  forall l : list string,
    Forall scope_name l ->
    LoginHelpers.parse_scopes (PStr (String.concat ", " l)) = l.
Proof.
  intros l H. unfold LoginHelpers.parse_scopes.
  assert (E : tmpl (or_prim (PStr (String.concat ", " l)) (PStr ""))
              = String.concat ", " l).
  { unfold or_prim. simpl.
    destruct (String.eqb (String.concat ", " l) "") eqn:E; simpl;
      [apply String.eqb_eq in E; rewrite E|]; reflexivity. }
  rewrite E. destruct l as [|x l]; [reflexivity|].
  rewrite (split_joined x l H). apply filter_scope_names. exact H.
Qed.

Lemma parse_scopes_of_joined_witness :
  LoginHelpers.parse_scopes (PStr "repo, read:user, gist")
    = ["repo"; "read:user"; "gist"].
Proof.
  refine (parse_scopes_of_joined ["repo"; "read:user"; "gist"] _).
  repeat (apply Forall_cons; [split; [discriminate | reflexivity]|]).
  apply Forall_nil.
Defined.

(* ================================================================= *)
(** ** Adoption of a token and the other helpers: properties *)

(** X22.  In local-only mode a token that passes the checks is stored
    with the scopes parsed from the header and then used, as it is, as
    application token of one login-request; the session the exchanger
    builds for that request records the token with the scope "repo" and
    the type "bearer", whatever scopes were parsed. *)
Theorem local_adoption_then_exchange :
  forall (c : LoginHelpers.Context) (token : string)
         (data : option RestUser.t) (hdr : prim) (d : RestUser.t),
    LoginHelpers.LOCAL_ONLY_PERSONAL_ACCESS_TOKEN c = true ->
    LoginHelpers.prompt c = Some token ->
    LoginHelpers.nonempty token = true ->
    LoginHelpers.get_user c = LoginHelpers.GetReturns data hdr ->
    LoginHelpers.identity_of data = Some d ->
    LoginHelpers.different_user d (LoginHelpers.loggedGitHubUserId c)
      = false ->
    LoginHelpers.missing_repo (LoginHelpers.parse_scopes hdr) = false ->
    effects (LoginHelpers.loginWithGitHubPersonalAccessToken c)
      = [TrackEvent "engagement" "login";
         SetIsExecutingOAuth true;
         SetPATLoadingState (Some "adding");
         Dispatch (replacePersonalTokenDetails (Some
           {| TokenDetails.token := token;
              TokenDetails.scope := LoginHelpers.parse_scopes hdr;
              TokenDetails.tokenType := None;
              TokenDetails.tokenCreatedAt := Some (LoginHelpers.now c);
              TokenDetails.login := RestUser.login d |}));
         Dispatch (loginRequest token);
         SetIsExecutingOAuth false;
         SetPATLoadingState None]
    /\ forall (w : Saga.World) (d' : RestUser.t),
         Saga.getAuthenticated w = Saga.OctokitReturns (Some d') ->
         exists (u : User.t) (g : GitHubIdentity.t) (p : TokenDetails.t),
           Saga.onLoginRequest true token w
             = ([Put (loginSuccess token u)], inr tt)
           /\ User.github u = Some g
           /\ GitHubIdentity.personal g = Some p
           /\ TokenDetails.token p = token
           /\ TokenDetails.scope p = ["repo"]
           /\ TokenDetails.tokenType p = Some "bearer".
Proof.
  intros c token data hdr d Hlocal Hp Ht Hg Hid Hsame Hscope. split.
  - rewrite (pat_login_after_get c token data hdr Hp Ht Hg).
    unfold LoginHelpers.validate, LoginHelpers.adopt.
    rewrite Hid, Hsame, Hscope, Hlocal. reflexivity.
  - intros w d' Hw.
    unfold Saga.onLoginRequest, Saga.login_attempt. rewrite Hw.
    eexists; eexists; eexists.
    split; [reflexivity|]. repeat split; reflexivity.
Qed.

Lemma local_adoption_then_exchange_witness :
  effects (LoginHelpers.loginWithGitHubPersonalAccessToken
             (paste_token PUndef PUndef ""))
    = [TrackEvent "engagement" "login";
       SetIsExecutingOAuth true;
       SetPATLoadingState (Some "adding");
       Dispatch (replacePersonalTokenDetails (Some
         {| TokenDetails.token := "ghp_token";
            TokenDetails.scope := [];
            TokenDetails.tokenType := None;
            TokenDetails.tokenCreatedAt := Some 5000;
            TokenDetails.login := PStr "octocat" |}));
       Dispatch (loginRequest "ghp_token");
       SetIsExecutingOAuth false;
       SetPATLoadingState None].
Proof.
  exact (proj1 (local_adoption_then_exchange
                  (paste_token PUndef PUndef "") "ghp_token"
                  (Some octocat_rest) (PStr "") octocat_rest
                  eq_refl eq_refl eq_refl eq_refl eq_refl eq_refl eq_refl)).
Defined.

(** X23.  A prompt that ends without a token, or with the empty text,
    counts as a cancellation: the helper sends nothing to GitHub, never
    sets the loading state to 'adding', shows no dialog, and reports the
    error 'Canceled' to the crash reporter. *)
Theorem pat_login_without_token_is_canceled :
  forall c : LoginHelpers.Context,
    LoginHelpers.prompt c = None \/ LoginHelpers.prompt c = Some "" ->
    LoginHelpers.loginWithGitHubPersonalAccessToken c
      = ([TrackEvent "engagement" "login";
          ConsoleError [VPrim (PStr "Personal access token login failed")];
          ConsoleError [new_Error "Canceled"];
          BugsnagNotify (new_Error "Canceled")
            (Some "Personal access token login failed");
          SetIsExecutingOAuth false;
          SetPATLoadingState None], inr tt).
Proof.
  intros c [H|H];
    unfold LoginHelpers.loginWithGitHubPersonalAccessToken,
      LoginHelpers.pat_attempt; rewrite H; reflexivity.
Qed.

Lemma pat_login_without_token_is_canceled_witness :
  count is_dialog
    (effects (LoginHelpers.loginWithGitHubPersonalAccessToken
                empty_token_prompt))
    = 0%nat.
Proof.
  rewrite (pat_login_without_token_is_canceled empty_token_prompt
             (or_intror eq_refl)).
  reflexivity.
Defined.

Lemma oauth_failed_no_dispatch (e : value) (a : action) :
  ~ In (Base (Dispatch a)) (MoreHelpers.oauth_failed e).
Proof.
  unfold MoreHelpers.oauth_failed.
  intros H. apply in_app_or in H. destruct H as [H|[H|[]]].
  - apply in_map_iff in H. destruct H as (x & Hx & Hin).
    injection Hx as ->.
    exact (handleAuthError_no_dispatch _ _ _ Hin).
  - discriminate H.
Qed.

Lemma oauth_failed_no_clear (e : value) :
  ~ In ClearOAuthQueryParams (MoreHelpers.oauth_failed e).
Proof.
  unfold MoreHelpers.oauth_failed.
  intros H. apply in_app_or in H. destruct H as [H|[H|[]]].
  - apply in_map_iff in H. destruct H as (x & Hx & _). discriminate Hx.
  - discriminate H.
Qed.

(** X24.  The OAuth login always ends by resetting the executing flag; it
    dispatches a login-request exactly when the flow returned a non-empty
    [appToken], which the request carries; and it clears the OAuth query
    parameters exactly when the flow returned at all. *)
Theorem loginWithGitHub_outcomes :
  forall (DEFAULT_GITHUB_OAUTH_SCOPES : list string) (fullAccess : bool)
         (oauth : MoreHelpers.OAuthOutcome),
    let run :=
      MoreHelpers.loginWithGitHub DEFAULT_GITHUB_OAUTH_SCOPES fullAccess
        oauth in
    (exists pre, run = (pre ++ [Base (SetIsExecutingOAuth false)])%list)
    /\ (forall t : string,
          In (Base (Dispatch (loginRequest t))) run
          <-> oauth = MoreHelpers.OAuthReturns (Some t) /\ t <> "")
    /\ (In ClearOAuthQueryParams run
        <-> exists appToken, oauth = MoreHelpers.OAuthReturns appToken).
Proof.
  intros D fullAccess oauth. cbv zeta. unfold MoreHelpers.loginWithGitHub.
  pose proof oauth_failed_no_dispatch as Hd.
  pose proof oauth_failed_no_clear as Hc.
  assert (Hend : forall e, exists pre,
             MoreHelpers.oauth_failed e
             = (pre ++ [Base (SetIsExecutingOAuth false)])%list)
    by (intros e; eexists; reflexivity).
  destruct oauth as [e|[tok|]].
  - split; [|split].
    + destruct (Hend e) as [pre ->]. eexists (_ :: _ :: _ :: _ :: pre).
      reflexivity.
    + intros t. split.
      * cbn [In app]. intros [H|[H|[H|[H|H]]]]; try discriminate H.
        exfalso. exact (Hd _ _ H).
      * intros [H _]. discriminate H.
    + split.
      * cbn [In app]. intros [H|[H|[H|[H|H]]]]; try discriminate H.
        exfalso. exact (Hc _ H).
      * intros [a H]. discriminate H.
  - unfold LoginHelpers.nonempty.
    destruct (String.eqb tok "") eqn:E; simpl negb; cbv iota.
    + apply String.eqb_eq in E. subst tok. split; [|split].
      * destruct (Hend (new_Error "No app token")) as [pre ->].
        eexists (_ :: _ :: _ :: _ :: _ :: pre). reflexivity.
      * intros t. split.
        -- cbn [In app]. intros [H|[H|[H|[H|[H|H]]]]]; try discriminate H.
           exfalso. exact (Hd _ _ H).
        -- intros [[= <-] H]. contradiction.
      * split; [intros _; eexists; reflexivity|].
        intros _. cbn [In app]. do 4 right. left. reflexivity.
    + apply String.eqb_neq in E. split; [|split].
      * eexists [_; _; _; _; _; _]. reflexivity.
      * intros t. split.
        -- cbn [In app]. intros [H|[H|[H|[H|[H|[H|[H|[]]]]]]]];
             try discriminate H.
           injection H as ->. auto.
        -- intros [[= ->] _]. cbn [In app]. do 5 right. left. reflexivity.
      * split; [intros _; eexists; reflexivity|].
        intros _. cbn [In app]. do 4 right. left. reflexivity.
  - split; [|split].
    + destruct (Hend (new_Error "No app token")) as [pre ->].
      eexists (_ :: _ :: _ :: _ :: _ :: pre). reflexivity.
    + intros t. split.
      * cbn [In app]. intros [H|[H|[H|[H|[H|H]]]]]; try discriminate H.
        exfalso. exact (Hd _ _ H).
      * intros [H _]. discriminate H.
    + split; [intros _; eexists; reflexivity|].
      intros _. cbn [In app]. do 4 right. left. reflexivity.
Qed.

(** X25.  Each choice of 'Create new token' opens the token page once
    and shows the prompt again; the prompt resolves at the first other
    answer, with the text typed on Continue and with [undefined] on
    Cancel, and ignores whatever would follow.  While every answer so far
    was 'Create new token', the prompt is still open. *)
Theorem prompt_resolves_at_first_answer :
  forall (env : MoreHelpers.PromptEnv) (k : nat) (a : MoreHelpers.Answer)
         (rest : list MoreHelpers.Answer),
    a <> MoreHelpers.CreateNewToken ->
    let run :=
      MoreHelpers.promptForPersonalAcessToken env
        (repeat MoreHelpers.CreateNewToken k ++ a :: rest)%list in
    snd run = Some (answered a)
    /\ List.length (filter is_open_page (fst run)) = k
    /\ List.length (filter is_token_prompt (fst run)) = S k
    /\ snd (MoreHelpers.promptForPersonalAcessToken env
              (repeat MoreHelpers.CreateNewToken k)) = None.
Proof.
  intros env k a rest Ha. cbv zeta.
  induction k as [|k IH].
  - destruct a; try contradiction; repeat split; reflexivity.
  - simpl repeat. cbn [app MoreHelpers.promptForPersonalAcessToken].
    destruct (MoreHelpers.promptForPersonalAcessToken env
                (repeat MoreHelpers.CreateNewToken k ++ a :: rest))
      as [l r].
    destruct (MoreHelpers.promptForPersonalAcessToken env
                (repeat MoreHelpers.CreateNewToken k)) as [l' r'].
    simpl in *. destruct IH as (H1 & H2 & H3 & H4).
    repeat split; auto.
Qed.

Lemma prompt_resolves_at_first_answer_witness :
  MoreHelpers.promptForPersonalAcessToken desktop_env
    [MoreHelpers.CreateNewToken; MoreHelpers.Continue "ghp_token";
     MoreHelpers.Cancel]
  = ([ShowTokenPrompt "Enable private repository access.";
      OpenNewTokenPage "DevHub (linux)"
        ["notifications"; "read:user"; "repo"];
      ShowTokenPrompt "Enable private repository access."],
     Some (Some "ghp_token"))
  /\ snd (MoreHelpers.promptForPersonalAcessToken desktop_env
            [MoreHelpers.CreateNewToken; MoreHelpers.Continue "ghp_token";
             MoreHelpers.Cancel])
     = Some (Some "ghp_token").
Proof.
  split; [reflexivity|].
  refine (proj1 (prompt_resolves_at_first_answer desktop_env 1
                   (MoreHelpers.Continue "ghp_token")
                   [MoreHelpers.Cancel] _)).
  discriminate.
Defined.

(** X26.  A failure of the exchange that has not the GraphQL error shape
    (as the HTTP errors of Octokit have not) is normalised without
    [status] and [response], so the reactor emits no logout for it; in
    local-only mode this holds for whatever the identity request throws,
    an HTTP 401 included. *)
Theorem unshaped_failure_never_logs_out :
  forall (appToken : string) (w : Saga.World) (e : value),
    Saga.getAuthenticated w = Saga.OctokitThrows e ->
    array_shape e = false ->
    Saga.onLoginRequest true appToken w
      = ([ConsoleError [VPrim (PStr "Login failed"); e];
          BugsnagNotify (to_Error e "Unknown error") None;
          Put (loginFailure (Saga.normalize e))], inr tt)
    /\ Saga.onLoginFailure (Some (Saga.normalize e)) = ([], inr tt).
Proof.
  intros appToken w e Hw Hshape. split.
  - unfold Saga.onLoginRequest, Saga.login_attempt. rewrite Hw. reflexivity.
  - unfold Saga.onLoginFailure, Saga.must_logout, Saga.normalize.
    rewrite isGraphQLErrorResponse_shape, Hshape. reflexivity.
Qed.

Lemma unshaped_failure_never_logs_out_witness :
  prop bad_credentials "status" = VPrim (PNum 401)
  /\ Saga.onLoginFailure (Some (Saga.normalize bad_credentials))
     = ([], inr tt).
Proof.
  split; [reflexivity|].
  exact (proj2 (unshaped_failure_never_logs_out "ghp_token"
                  {| Saga.now := 0;
                     Saga.getAuthenticated :=
                       Saga.OctokitThrows bad_credentials;
                     Saga.post := Saga.AxiosThrows undefined |}
                  bad_credentials eq_refl eq_refl)).
Defined.
